(** * simple-mongoose-interface: operation model, REST adapter and RPC adapter

    A shallow embedding of the protocol-translation layer:
    - [RESTInterfaceHandler.ts] (request mapping and response rendering),
    - [RPCInterface.ts] (method registration),
    - [RESTInterfaceMiddleware.ts] (the middleware around the handler),
    - of [ModelInterface.ts], [wrapError]; the Simple Interface the adapters
      front is a collaborator they are given.

    JavaScript values are a small inductive type; an [async] function that may
    throw and that mutates the [ServerResponse] is a function in a state and
    error monad over the response object and a log of the I/O it performed. *)

From stdpp Require Import gmap strings list pretty.
From Stdlib Require Import ZArith Lia Ascii.

Set Warnings "-register-all,-clear-no-such-hyp".

Local Open Scope string_scope.
Local Open Scope Z_scope.
Local Open Scope list_scope.

(** ** JavaScript values *)

Definition Buffer := list Byte.byte.

(** Numbers are integers here (status codes, counts, millisecond timestamps);
    a [Symbol] is identified by its description. *)
Inductive value : Type :=
| VUndefined
| VNull
| VBool (b : bool)
| VNum (n : Z)
| VStr (s : string)
| VSym (description : string)
| VBuf (bytes : Buffer)
| VArr (items : list value)
| VObj (fields : list (string * value)).

(** The result of running code that may throw. *)
Inductive outcome (A : Type) : Type :=
| Returned (a : A)
| Thrown (err : value).
Arguments Returned {A} a.
Arguments Thrown {A} err.

Definition truthy (v : value) : bool :=
  match v with
  | VUndefined | VNull => false
  | VBool b => b
  | VNum n => negb (n =? 0)
  | VStr s => negb (String.eqb s "")
  | VSym _ | VBuf _ | VArr _ | VObj _ => true
  end.

(** [a || b] on values. *)
Definition js_or (a b : value) : value := if truthy a then a else b.

Definition isUndefined (v : value) : bool :=
  match v with VUndefined => true | _ => false end.

Definition isNull (v : value) : bool :=
  match v with VNull => true | _ => false end.

(** [_.isObject]: arrays and plain objects (buffers are never descended into). *)
Definition isObject (v : value) : bool :=
  match v with VArr _ | VObj _ => true | _ => false end.

Module Fields.
(** Own properties of an object literal, in insertion order. *)
Fixpoint lookup (k : string) (kvs : list (string * value)) : value :=
  match kvs with
  | [] => VUndefined
  | (k', v) :: rest => if String.eqb k' k then v else lookup k rest
  end.

(** [o[k] = v]: an existing key keeps its position, a new one goes last. *)
Fixpoint assign (k : string) (v : value) (kvs : list (string * value))
  : list (string * value) :=
  match kvs with
  | [] => [(k, v)]
  | (k', v') :: rest =>
      if String.eqb k' k then (k, v) :: rest else (k', v') :: assign k v rest
  end.

(** [delete o[k]]. *)
Fixpoint remove (k : string) (kvs : list (string * value))
  : list (string * value) :=
  match kvs with
  | [] => []
  | (k', v') :: rest =>
      if String.eqb k' k then remove k rest else (k', v') :: remove k rest
  end.
End Fields.

(** [isIndex]: a property key that is a canonical array index, ["0"], ["1"],
    ["2"], ... *)
Definition digit (a : ascii) : option nat :=
  let n := nat_of_ascii a in
  if ((48 <=? n) && (n <=? 57))%nat then Some (n - 48)%nat else None.

Fixpoint parseDigits (acc : nat) (s : string) : option nat :=
  match s with
  | EmptyString => Some acc
  | String a rest =>
      match digit a with
      | Some d => parseDigits (10 * acc + d)%nat rest
      | None => None
      end
  end.

Definition parseIndex (k : string) : option nat :=
  match k with
  | EmptyString => None
  | String a EmptyString => digit a
  | String a _ => if Ascii.eqb a "0"%char then None else parseDigits 0 k
  end.

Definition isIndex (k : string) : bool :=
  match parseIndex k with Some _ => true | None => false end.

(** Property read [v[k]] on a value that is not [undefined]/[null]; properties
    inherited from built-in prototypes are not part of the model. *)
Definition get (v : value) (k : string) : value :=
  match v with
  | VObj kvs => Fields.lookup k kvs
  | VArr items =>
      match parseIndex k with
      | Some i => default VUndefined (items !! i)
      | None => VUndefined
      end
  | _ => VUndefined
  end.

(** Optional chaining [v?.k]. *)
Definition getOpt (v : value) (k : string) : value :=
  match v with
  | VUndefined | VNull => VUndefined
  | _ => get v k
  end.

(** Own enumerable string-keyed properties, as [for ... in] and object spread
    visit them. *)
Definition indexed (items : list value) : list (string * value) :=
  imap (fun i x => (pretty i, x)) items.

Definition chars (s : string) : list value :=
  (fun a => VStr (String a EmptyString)) <$> String.list_ascii_of_string s.

Definition ownEntries (v : value) : list (string * value) :=
  match v with
  | VObj kvs => kvs
  | VArr items => indexed items
  | VStr s => indexed (chars s)
  | _ => []
  end.

(** ** Operation model *)

(** Modelled from the spec: the enum [ModelInterfaceRequestMethods] is declared
    in [ModelInterface.ts]; its members are the keys of [OperationToHTTPMethod]
    and the operation vocabulary of the spec (find, findOne, findById, count,
    create, update, patch, delete).  The members are non-empty strings, hence
    truthy. *)
Module ModelInterfaceRequestMethods.
Inductive t : Set :=
| find | findOne | findById | count | create | update | patch | delete.

Definition eqb (a b : t) : bool :=
  match a, b with
  | find, find | findOne, findOne | findById, findById | count, count
  | create, create | update, update | patch, patch | delete, delete => true
  | _, _ => false
  end.
End ModelInterfaceRequestMethods.

Definition Method : Set := ModelInterfaceRequestMethods.t.

Record ModelInterfaceRequest : Type := {
  req_method : Method;
  req_body : value
}.

(** [method] is [None] when it is [undefined]. *)
Record ModelInterfaceResponse : Type := {
  resp_method : option Method;
  resp_body : value
}.

(** ** ModelInterface.wrapError *)

Definition IsModelInterfaceError : value := VSym "IsModelInterfaceError".

Definition carriesSentinel (err : value) : bool :=
  match getOpt err "isModelInterfaceError" with
  | VSym d => String.eqb d "IsModelInterfaceError"
  | _ => false
  end.

(** Modelled from the spec: [ModelInterface.wrapError] of [ModelInterface.ts].
    "If [err] already carries the wrapped-error sentinel, return unchanged;
    otherwise produce a new Wrapped Error whose [innerError] is the original
    error and whose [message]/[stack] are copied through." *)
Definition wrapError (err : value) : value :=
  if carriesSentinel err then err
  else VObj [ ("message", getOpt err "message");
              ("innerError", err);
              ("stack", getOpt err "stack");
              ("isModelInterfaceError", IsModelInterfaceError) ].

(** ** SimpleModelInterface

    The adapters are constructed around a [SimpleModelInterface] and call its
    [execute].  The class is declared in [ModelInterface.ts]; to the adapters
    it is a collaborator like the codec: [execute] answers an operation
    request with whatever Operation Response it answers (a body, or none at
    all), or throws. *)

Module SimpleModelInterface.
Record t : Type := {
  execute : ModelInterfaceRequest -> outcome ModelInterfaceResponse
}.
End SimpleModelInterface.

(** ** lodash [_.set] *)

(** [assignValue(nested, key, value)].  A key that is not an index cannot be
    stored on an array of this model; such an array is left as it is. *)
Definition assignValue (nested : value) (key : string) (v : value) : value :=
  match nested with
  | VObj kvs => VObj (Fields.assign key v kvs)
  | VArr items =>
      match parseIndex key with
      | Some i =>
          if (i <? length items)%nat then VArr (<[i := v]> items)
          else VArr (items ++ replicate (i - length items) VUndefined ++ [v])
      | None => nested
      end
  | _ => nested
  end.

Definition unsafeKey (key : string) : bool :=
  String.eqb key "__proto__" || String.eqb key "constructor"
  || String.eqb key "prototype".

(** The loop of lodash's [baseSet] along an already parsed path. *)
Fixpoint baseSet (path : list string) (v : value) (nested : value) : value :=
  match path with
  | [] => nested
  | key :: rest =>
      if unsafeKey key then nested
      else
        match rest with
        | [] => assignValue nested key v
        | next :: _ =>
            let objValue := get nested key in
            let newValue :=
              if isObject objValue then objValue
              else if isIndex next then VArr [] else VObj [] in
            assignValue nested key (baseSet rest v newValue)
        end
  end.

Definition lodash_set (object : value) (path : list string) (v : value) : value :=
  if isObject object then baseSet path v object else object.


(** [{...a, ...b}]. *)
Definition objectSpread (a b : value) : value :=
  VObj (fold_left (fun acc kv => Fields.assign kv.1 kv.2 acc)
                  (ownEntries a ++ ownEntries b) []).

(** ** JavaScript strings *)

Fixpoint dropChars (n : nat) (s : string) : string :=
  match n, s with
  | O, _ => s
  | S n', String _ rest => dropChars n' rest
  | S _, EmptyString => EmptyString
  end.

(** [s.replace(pat, '')] with a string pattern: the first occurrence goes. *)
Fixpoint replaceFirst (pat s : string) : string :=
  if String.prefix pat s then dropChars (String.length pat) s
  else
    match s with
    | EmptyString => EmptyString
    | String c rest => String c (replaceFirst pat rest)
    end.

(** [s.split(c).shift()]: the part before the first [c]. *)
Fixpoint upTo (c : ascii) (s : string) : string :=
  match s with
  | EmptyString => EmptyString
  | String a rest => if Ascii.eqb a c then EmptyString else String a (upTo c rest)
  end.

(** [items.join(sep)]; [undefined] items print as the empty string. *)
Fixpoint join (sep : string) (items : list (option string)) : string :=
  match items with
  | [] => ""
  | [x] => default "" x
  | x :: rest => default "" x +:+ sep +:+ join sep rest
  end.

Definition optStringEqb (a b : option string) : bool :=
  match a, b with
  | Some x, Some y => String.eqb x y
  | None, None => true
  | _, _ => false
  end.

(** [Array.from(new Set(items).values())]: first occurrences, in order. *)
Fixpoint uniqueFrom (seen items : list (option string)) : list (option string) :=
  match items with
  | [] => []
  | x :: rest =>
      if existsb (optStringEqb x) seen then uniqueFrom seen rest
      else x :: uniqueFrom (x :: seen) rest
  end.

Definition unique (items : list (option string)) : list (option string) :=
  uniqueFrom [] items.

(** ** The HTTP exchange *)

(** The inbound message as the handler reads it: [req.body] is whatever an
    earlier middleware attached (any value), [http_stream] is what
    [getRawBody(req, rawBodyOptions)] yields when the request stream is read. *)
Record IncomingMessage : Type := {
  http_method : string;
  http_url : string;
  http_headers : list (string * string);
  http_body : value;
  http_stream : outcome Buffer
}.

Fixpoint header (name : string) (hs : list (string * string)) : option string :=
  match hs with
  | [] => None
  | (k, v) :: rest => if String.eqb k name then Some v else header name rest
  end.

(** The outbound message: the assigned status code, the [setHeader] calls in
    the order they were made, the chunks written and whether [end] was called. *)
Record ServerResponse : Type := {
  statusCode : value;
  setHeaders : list (string * value);
  written : list Buffer;
  ended : bool
}.

Definition freshResponse : ServerResponse :=
  {| statusCode := VNum 200; setHeaders := []; written := []; ended := false |}.

(** The value a header has after the recorded [setHeader] calls. *)
Fixpoint lastHeader (name : string) (hs : list (string * value)) : option value :=
  match hs with
  | [] => None
  | (k, v) :: rest =>
      match lastHeader name rest with
      | Some v' => Some v'
      | None => if String.eqb k name then Some v else None
      end
  end.

Inductive Event : Type :=
| ReadStream
| Deserialize (buf : Buffer) (format : string).

Definition isReadStream (e : Event) : bool :=
  match e with ReadStream => true | _ => false end.

Definition isDeserialize (e : Event) : bool :=
  match e with Deserialize _ _ => true | _ => false end.

Record World : Type := {
  res : ServerResponse;
  io : list Event
}.

Definition world0 : World := {| res := freshResponse; io := [] |}.

(** *** The monad of handler code *)

Definition M (A : Type) : Type := World -> outcome A * World.

Definition ret {A} (a : A) : M A := fun w => (Returned a, w).

Definition throw {A} (e : value) : M A := fun w => (Thrown e, w).

Definition bind {A B} (m : M A) (k : A -> M B) : M B :=
  fun w =>
    match m w with
    | (Returned a, w') => k a w'
    | (Thrown e, w') => (Thrown e, w')
    end.

Definition tryCatch {A} (m : M A) (handler : value -> M A) : M A :=
  fun w =>
    match m w with
    | (Returned a, w') => (Returned a, w')
    | (Thrown e, w') => handler e w'
    end.

Definition liftOutcome {A} (o : outcome A) : M A := fun w => (o, w).

Notation "'let!' x ':=' m 'in' k" := (bind m (fun x => k))
  (at level 10, x name, m at level 100, k at level 200).
Notation "m '>>' k" := (bind m (fun _ => k))
  (at level 90, right associativity).

Definition updRes (f : ServerResponse -> ServerResponse) : M unit :=
  fun w => (Returned tt, {| res := f (res w); io := io w |}).

Definition logEvent (e : Event) : M unit :=
  fun w => (Returned tt, {| res := res w; io := io w ++ [e] |}).

(** [res.statusCode = code]. *)
Definition setStatus (code : value) : M unit :=
  updRes (fun r => {| statusCode := code; setHeaders := setHeaders r;
                      written := written r; ended := ended r |}).

(** [res.setHeader(name, v)]. *)
Definition setHeader (name : string) (v : value) : M unit :=
  updRes (fun r => {| statusCode := statusCode r;
                      setHeaders := setHeaders r ++ [(name, v)];
                      written := written r; ended := ended r |}).

(** [res.write(chunk)]. *)
Definition write (chunk : Buffer) : M unit :=
  updRes (fun r => {| statusCode := statusCode r; setHeaders := setHeaders r;
                      written := written r ++ [chunk]; ended := ended r |}).

(** [res.end()]. *)
Definition endResponse : M unit :=
  updRes (fun r => {| statusCode := statusCode r; setHeaders := setHeaders r;
                      written := written r; ended := true |}).

(** [await getRawBody(req, rawBodyOptions)]. *)
Definition getRawBody (req : IncomingMessage) : M Buffer :=
  logEvent ReadStream >> liftOutcome (http_stream req).

Fixpoint forEach {A} (items : list A) (body : A -> M unit) : M unit :=
  match items with
  | [] => ret tt
  | x :: rest => body x >> forEach rest body
  end.

(** *** External collaborators *)

Record URL : Type := {
  href : string;
  pathname : string;
  search : string
}.

(** [query-string]'s [ParseOptions]. *)
Record ParseOptions : Type := {
  parseBooleans : bool;
  parseNumbers : bool
}.

Definition DEFAULT_PARSE_OPTIONS : ParseOptions :=
  {| parseBooleans := true; parseNumbers := true |}.

(** The serialization codec ([IEncodeTools]). *)
Record IEncodeTools : Type := {
  deserializeObject : Buffer -> string -> outcome value;
  serializeObject : value -> string -> outcome Buffer;
  (** returns [(format, mimeType)] *)
  headerToSerializationFormat : IncomingMessage -> string -> string * string
}.

(** The platform the handler runs on: WHATWG [URL], [query-string], lodash's
    path parser and [Date]. *)
Record Platform : Type := {
  (** [new URL(url, base)] *)
  newURL : string -> string -> outcome URL;
  (** [url.pathname += id], then the URL as it stands *)
  appendToPathname : URL -> value -> URL;
  (** [qs.parse(search, options)], keys in iteration order *)
  qs_parse : string -> ParseOptions -> list (string * value);
  (** lodash [castPath(path, object)] *)
  castPath : string -> value -> list string;
  (** [new Date(v).getTime()], [None] for [NaN] *)
  dateTime : value -> option Z;
  (** [toISOString] of a valid date *)
  isoString : Z -> string
}.

Definition RangeError : value :=
  VObj [("name", VStr "RangeError"); ("message", VStr "Invalid time value")].

(** [date.toISOString()]. *)
Definition toISOString (pf : Platform) (t : option Z) : outcome string :=
  match t with
  | Some ms => Returned (isoString pf ms)
  | None => Thrown RangeError
  end.

(** ** RESTInterfaceHandler.ts *)

Module RESTInterfaceHandler.
Import ModelInterfaceRequestMethods.

Definition InvalidHTTPMethodError (verb : string) : value :=
  VObj [ ("message", VStr ("Invalid HTTP method " +:+ verb));
         ("isModelInterfaceError", IsModelInterfaceError) ].

(** Map of operations to HTTP methods, in source order. *)
Definition OperationToHTTPMethod : list (Method * string) :=
  [ (create, "POST"); (update, "PUT"); (delete, "DELETE"); (find, "GET");
    (findById, "GET"); (count, "HEAD"); (findOne, "GET"); (patch, "PATCH") ].

(** [Map.prototype.get] on a map built from an entry list: the last entry
    for a key is the one that counts. *)
Fixpoint mapGet {K V} (eqbK : K -> K -> bool) (k : K) (entries : list (K * V))
  : option V :=
  match entries with
  | [] => None
  | (k', v) :: rest =>
      match mapGet eqbK k rest with
      | Some v' => Some v'
      | None => if eqbK k' k then Some v else None
      end
  end.

Definition OperationToHTTPMethod_get (m : Method) : option string :=
  mapGet ModelInterfaceRequestMethods.eqb m OperationToHTTPMethod.

(** The map [execute] builds by swapping the entries of
    [OperationToHTTPMethod]. *)
Definition HTTPMethodToOperation_get (verb : string) : option Method :=
  mapGet String.eqb verb ((fun kv => (kv.2, kv.1)) <$> OperationToHTTPMethod).

(** A template-literal hole. *)
Definition interpolate (s : option string) : string := default "undefined" s.

Definition HTTPMethodNotAllowedError (m : Method)
    (allowedMethods : option (list Method)) : value :=
  VObj ([ ("message",
           VStr ("HTTP method " +:+ interpolate (OperationToHTTPMethod_get m)
                 +:+ " now allowed"));
          ("isModelInterfaceError", IsModelInterfaceError);
          ("httpCode", VNum 405) ]
        ++ match allowedMethods with
           | Some ms =>
               [ ("headers",
                  VObj [ ("Allow",
                          VStr (join " " (unique (OperationToHTTPMethod_get <$> ms)))) ]) ]
           | None => []
           end).

Record RESTInterfaceParserOptions : Type := {
  skipParseBody : option bool;
  upsert : option bool;
  allowedMethods : option (list Method);
  lastModifiedField : option string
}.

Record RESTInterfaceHandlerOptions : Type := {
  encoder : IEncodeTools;
  queryStringOptions : ParseOptions;
  parseOptions : option RESTInterfaceParserOptions
}.

(** The handler object: the Simple Interface it fronts, the URL base and the
    options. *)
Record t : Type := {
  modelInterface : SimpleModelInterface.t;
  urlBase : string;
  options : RESTInterfaceHandlerOptions
}.

(** [opts?.flag] read for its truth value. *)
Definition flag {O} (opts : option O) (field : O -> option bool) : bool :=
  match opts with
  | Some o => default false (field o)
  | None => false
  end.

(** [req.method === lit && m]. *)
Definition whenVerb (verb lit : string) (m : Method) : option Method :=
  if String.eqb verb lit then Some m else None.

(** [a || b] where [a] is [false] or a (truthy) operation name. *)
Definition orElse (a b : option Method) : option Method :=
  match a with Some _ => a | None => b end.

(** Lines 218-234: the operation an HTTP verb resolves to; [None] is [null]. *)
Definition resolveMethod (verb : string) (hasPathname : bool) : option Method :=
  orElse (whenVerb verb "POST" create)
 (orElse (whenVerb verb "PUT" update)
 (orElse (whenVerb verb "PATCH" patch)
 (orElse (whenVerb verb "DELETE" delete)
 (orElse (whenVerb verb "HEAD" count)
 (orElse (Some (if hasPathname then findOne else find))
         None))))).

(** Line 215: [pathname.substr(1).split('?').shift().split('#').shift()]. *)
Definition targetIdOf (pathname : string) : string :=
  upTo "#"%char (upTo "?"%char (dropChars 1 pathname)).

Section Handler.
Variable pf : Platform.
Variable this : t.

Definition parseUrl (req : IncomingMessage) : outcome URL :=
  newURL pf (http_url req) (urlBase this).

(** Lines 208-213: the body buffer, [None] for [null]. *)
Definition readBody (req : IncomingMessage)
    (opts : option RESTInterfaceParserOptions) : M (option Buffer) :=
  let! buf :=
    match http_body req with
    | VBuf b => ret (Some b)
    | _ =>
        if flag opts skipParseBody then ret None
        else let! b := getRawBody req in ret (Some b)
    end in
  ret match buf with
      | Some b => if (length b =? 0)%nat then None else Some b
      | None => None
      end.

(** Lines 264-267: the query string overrides the body. *)
Definition overrideWithQueryString (q : list (string * value)) (body : value)
  : value :=
  fold_left
    (fun body kv => lodash_set body (castPath pf ("query." +:+ kv.1) body) kv.2)
    q body.

(** Lines 244-253: the operation and the body the path remainder gives. *)
Definition pathDerived (method : Method) (targetId : string) : Method * value :=
  let body := VObj [] in
  if negb (String.eqb targetId "") then
    let body := lodash_set body ["query"; "query"; "_id"] (VStr targetId) in
    if ModelInterfaceRequestMethods.eqb method count then
      (findOne,
       lodash_set body ["query"; "project"]
         (VObj [("_id", VNum 1); ("updatedAt", VNum 1)]))
    else (method, body)
  else (method, body).

(** Lines 255-259: the deserialized message body goes under [body]. *)
Definition mergeBody (req : IncomingMessage) (buf : option Buffer) (body : value)
  : M value :=
  match buf with
  | Some b =>
      let format :=
        (headerToSerializationFormat (encoder (options this))
           req "content-type").1 in
      logEvent (Deserialize b format) >>
      let! parsed :=
        liftOutcome (deserializeObject (encoder (options this)) b format) in
      ret (objectSpread parsed body)
  | None => ret body
  end.

(** Line 239: [opts?.allowedMethods && !opts?.allowedMethods.includes(method)]. *)
Definition notAllowed (opts : option RESTInterfaceParserOptions) (method : Method)
  : bool :=
  match opts with
  | Some o =>
      match allowedMethods o with
      | Some ms => negb (existsb (ModelInterfaceRequestMethods.eqb method) ms)
      | None => false
      end
  | None => false
  end.

(** The default value of the [opts] parameter. *)
Definition effectiveOptions (opts : option RESTInterfaceParserOptions)
  : option RESTInterfaceParserOptions :=
  match opts with
  | Some o => Some o
  | None => parseOptions (options this)
  end.

(** Lines 215-275: from the parsed URL and the body buffer to the request. *)
Definition buildRequest (req : IncomingMessage)
    (opts : option RESTInterfaceParserOptions) (parsedUrl : URL)
    (buf : option Buffer) : M ModelInterfaceRequest :=
  let pathname := replaceFirst (urlBase this) (href parsedUrl) in
  let targetId := targetIdOf pathname in
  match resolveMethod (http_method req) (negb (String.eqb targetId "")) with
  | None => throw (InvalidHTTPMethodError (http_method req))
  | Some method =>
      if notAllowed opts method then
        throw (HTTPMethodNotAllowedError method
                 (match opts with Some o => allowedMethods o | None => None end))
      else
        let derived := pathDerived method targetId in
        let! body := mergeBody req buf derived.2 in
        let q := qs_parse pf (search parsedUrl) (queryStringOptions (options this)) in
        let body := overrideWithQueryString q body in
        ret {| req_method := derived.1; req_body := body |}
  end.

Definition interfaceRequestFromHttpRequest (req : IncomingMessage)
    (opts : option RESTInterfaceParserOptions) : M ModelInterfaceRequest :=
  let opts := effectiveOptions opts in
  let! parsedUrl := liftOutcome (parseUrl req) in
  let! buf := readBody req opts in
  buildRequest req opts parsedUrl buf.

(** Lines 285-299 of [execute]: the operation response, from the Simple
    Interface or, when request construction threw, synthesized around the
    wrapped error (its unused [id: null] field is left out). *)
Definition obtainResponse (httpReq : IncomingMessage)
    (opts : option RESTInterfaceParserOptions) : M ModelInterfaceResponse :=
  let! r :=
    tryCatch
      (let! req := interfaceRequestFromHttpRequest httpReq opts in
       ret (inl req))
      (fun err =>
         ret (inr {| resp_method := HTTPMethodToOperation_get (http_method httpReq);
                     resp_body := VObj [("error", wrapError err)] |})) in
  match r with
  | inl req => liftOutcome (SimpleModelInterface.execute (modelInterface this) req)
  | inr resp => ret resp
  end.

(** Line 301: [opts?.lastModifiedField || 'updatedAt']. *)
Definition lastModifiedFieldOf (opts : option RESTInterfaceParserOptions)
  : string :=
  match opts with
  | Some o =>
      match lastModifiedField o with
      | Some f => if String.eqb f "" then "updatedAt" else f
      | None => "updatedAt"
      end
  | None => "updatedAt"
  end.

(** Line 309: [modSince && lastModified &&
    modSince.getTime() <= lastModified.getTime()]; a comparison with [NaN]
    is false. *)
Definition notModified (modSince : option (option Z)) (lastModified : option Z)
  : bool :=
  match modSince, lastModified with
  | Some (Some ms), Some lm => ms <=? lm
  | _, _ => false
  end.

(** Lines 301-317 of [execute]: conditional GET.  Returns [true] when the
    exchange was answered with 304 and [execute] returned. *)
Definition conditionalGet (httpReq : IncomingMessage)
    (opts : option RESTInterfaceParserOptions) (resp : ModelInterfaceResponse)
  : M bool :=
  let field := lastModifiedFieldOf opts in
  let result := getOpt (resp_body resp) "result" in
  if truthy result && truthy (get result field) then
    let lastModified := dateTime pf (get result field) in
    let modSince :=
      match header "if-modified-since" (http_headers httpReq) with
      | Some h => if truthy (VStr h) then Some (dateTime pf (VStr h)) else None
      | None => None
      end in
    if notModified modSince lastModified then
      setStatus (VNum 304) >> endResponse >> ret true
    else
      let! iso := liftOutcome (toISOString pf lastModified) in
      setHeader "Last-Modified" (VStr iso) >> ret false
  else ret false.

(** [[].concat(x)]. *)
Definition concatOnto (x : value) : list value :=
  match x with VArr items => items | _ => [x] end.

(** Lines 341-347: the headers an error carries are replayed. *)
Definition replayHeaders (error : value) : M unit :=
  if truthy (get error "headers") then
    forEach (ownEntries (get error "headers"))
      (fun kv =>
         forEach (concatOnto (js_or (get (get error "headers") kv.1) (VStr "")))
           (fun h => setHeader kv.1 h))
  else ret tt.

(** Line 354: the sentinel is deleted from the error before serialization. *)
Definition stripSentinel (body : value) : value :=
  if truthy (getOpt (getOpt body "error") "isModelInterfaceError") then
    match body with
    | VObj kvs =>
        match Fields.lookup "error" kvs with
        | VObj ekvs =>
            VObj (Fields.assign "error"
                    (VObj (Fields.remove "isModelInterfaceError" ekvs)) kvs)
        | _ => body
        end
    | _ => body
    end
  else body.

Definition isCreate (m : option Method) : bool :=
  match m with
  | Some m => ModelInterfaceRequestMethods.eqb m create
  | None => false
  end.

(** Lines 318-359 of [execute]: status selection and body. *)
Definition renderResponse (httpReq : IncomingMessage)
    (resp : ModelInterfaceResponse) : M unit :=
  let body := resp_body resp in
  if isUndefined body || isNull body then
    setStatus (VNum 204)
  else if isNull (getOpt body "result") then
    setStatus (VNum 404)
  else if isCreate (resp_method resp) && truthy (getOpt body "id") then
    let! url := liftOutcome (parseUrl httpReq) in
    let url := appendToPathname pf url (getOpt body "id") in
    setStatus (VNum 201) >>
    setHeader "Location" (VStr (href url))
  else
    let '(serializationFormat, mimeType) :=
      headerToSerializationFormat (encoder (options this)) httpReq "accept" in
    setHeader "Content-Type" (VStr mimeType) >>
    (if negb (isUndefined (getOpt body "result"))
        && String.eqb (http_method httpReq) "HEAD"
     then setHeader "X-Count"
            (VNum (if negb (isNull (getOpt body "result")) then 1 else 0))
     else if negb (isUndefined (getOpt body "count"))
     then setHeader "X-Count" (getOpt body "count")
     else ret tt) >>
    (if truthy (getOpt body "error") then
       let error := getOpt body "error" in
       setStatus (js_or (get error "httpCode") (VNum 500)) >>
       replayHeaders error
     else setStatus (VNum 200)) >>
    (if negb (String.eqb (http_method httpReq) "HEAD") then
       let! chunk :=
         liftOutcome (serializeObject (encoder (options this))
                        (stripSentinel body) serializationFormat) in
       write chunk
     else ret tt).

(** [RESTInterfaceHandler.execute(httpReq, res, opts)]. *)
Definition execute (httpReq : IncomingMessage)
    (opts : option RESTInterfaceParserOptions) : M unit :=
  let! resp := obtainResponse httpReq opts in
  let! answered := conditionalGet httpReq opts resp in
  if answered then ret tt
  else renderResponse httpReq resp >> endResponse.
End Handler.
End RESTInterfaceHandler.

(** ** RPCInterface.ts *)

Module RPCInterface.
(** A property of the Simple Interface object: a function (known by its
    identity) or any other value, as a getter would yield. *)
Inductive Member : Type :=
| Fn (identity : string)
| NotFn (v : value).

(** The Simple Interface instance as the constructor inspects it: its own
    properties, the properties of its prototype
    ([Object.getOwnPropertyNames(modelInterface.__proto__)], non-enumerable
    ones included) and [modelInterface.modelInterface.name]. *)
Record SimpleInterfaceObject : Type := {
  ownProperties : list (string * Member);
  prototypeProperties : list (string * Member);
  modelName : string
}.

Fixpoint member (k : string) (props : list (string * Member)) : option Member :=
  match props with
  | [] => None
  | (k', m) :: rest => if String.eqb k' k then Some m else member k rest
  end.

(** [modelInterface[k]]: own properties shadow the prototype's. *)
Definition property (o : SimpleInterfaceObject) (k : string) : option Member :=
  match member k (ownProperties o) with
  | Some m => Some m
  | None => member k (prototypeProperties o)
  end.

(** [f.bind(thisArg)]. *)
Record BoundFunction : Type := {
  targetFunction : string;
  boundThis : SimpleInterfaceObject
}.

Definition TypeError : value :=
  VObj [("name", VStr "TypeError"); ("message", VStr "bind is not a function")].

Section Constructor.
Variable modelInterface : SimpleInterfaceObject.
Variable methodPrefix : option string.

Definition rpcInterfaceMethodPrefix : string :=
  (match methodPrefix with
   | Some p => if truthy (VStr p) then p else ""
   | None => ""
   end) +:+ modelName modelInterface +:+ ":".

(** One turn of the constructor's loop over the property names. *)
Definition register (k : string) (methods : gmap string BoundFunction)
  : outcome unit * gmap string BoundFunction :=
  if String.eqb k "constructor" || String.eqb k "execute" then
    (Returned tt, methods)
  else
    match property modelInterface k with
    | Some (Fn f) =>
        (Returned tt,
         <[ rpcInterfaceMethodPrefix +:+ k :=
              {| targetFunction := f; boundThis := modelInterface |} ]> methods)
    | _ => (Thrown TypeError, methods)
    end.

Fixpoint registerAll (names : list string) (methods : gmap string BoundFunction)
  : outcome unit * gmap string BoundFunction :=
  match names with
  | [] => (Returned tt, methods)
  | k :: rest =>
      match register k methods with
      | (Returned _, methods') => registerAll rest methods'
      | (Thrown e, methods') => (Thrown e, methods')
      end
  end.

(** [new RPCInterface(modelInterface, rpcServer, methodPrefix)], as it acts
    on [rpcServer.methods]. *)
Definition construct (methods : gmap string BoundFunction)
  : outcome unit * gmap string BoundFunction :=
  registerAll (fst <$> prototypeProperties modelInterface) methods.
End Constructor.
End RPCInterface.

(** ** Vocabulary of the properties *)

(** [k] is registered as the bound method [k] of the Simple Interface. *)
Definition registeredAs (mi : RPCInterface.SimpleInterfaceObject) (prefix k : string)
    (methods : gmap string RPCInterface.BoundFunction) : Prop :=
  exists f, RPCInterface.property mi k = Some (RPCInterface.Fn f)
            /\ methods !! (prefix +:+ k)
               = Some {| RPCInterface.targetFunction := f;
                         RPCInterface.boundThis := mi |}.

(** The property names the RPC constructor skips. *)
Definition excluded (k : string) : bool :=
  String.eqb k "constructor" || String.eqb k "execute".

(** The response object after further calls on it. *)
Definition withStatus (code : value) (w : World) : World :=
  {| res := {| statusCode := code; setHeaders := setHeaders (res w);
               written := written (res w); ended := ended (res w) |};
     io := io w |}.

Definition withHeaders (hs : list (string * value)) (w : World) : World :=
  {| res := {| statusCode := statusCode (res w);
               setHeaders := setHeaders (res w) ++ hs;
               written := written (res w); ended := ended (res w) |};
     io := io w |}.

Definition withWritten (chunks : list Buffer) (w : World) : World :=
  {| res := {| statusCode := statusCode (res w); setHeaders := setHeaders (res w);
               written := written (res w) ++ chunks; ended := ended (res w) |};
     io := io w |}.

Definition withEnded (w : World) : World :=
  {| res := {| statusCode := statusCode (res w); setHeaders := setHeaders (res w);
               written := written (res w); ended := true |};
     io := io w |}.

(** The four ways a response is rendered once it is not answered with 304. *)
Inductive Branch : Set := NoContent | NotFound | Created | Negotiated.

Definition branchOf (resp : ModelInterfaceResponse) : Branch :=
  let body := resp_body resp in
  if isUndefined body || isNull body then NoContent
  else if isNull (getOpt body "result") then NotFound
  else if RESTInterfaceHandler.isCreate (resp_method resp)
          && truthy (getOpt body "id") then Created
  else Negotiated.

(** The status selection in the spec's words: "body absent/null -> 204;
    single-result body explicitly null -> 404; create with a generated id ->
    201; otherwise 200, or the error's httpCode (default 500) if the body
    carries an error". *)
Definition statusPerSpec (resp : ModelInterfaceResponse) : value :=
  match branchOf resp with
  | NoContent => VNum 204
  | NotFound => VNum 404
  | Created => VNum 201
  | Negotiated =>
      if truthy (getOpt (resp_body resp) "error")
      then js_or (get (getOpt (resp_body resp) "error") "httpCode") (VNum 500)
      else VNum 200
  end.

(** The [X-Count] header of the negotiated branch. *)
Definition xCountHeaders (verb : string) (body : value) : list (string * value) :=
  if negb (isUndefined (getOpt body "result")) && String.eqb verb "HEAD"
  then [("X-Count", VNum (if negb (isNull (getOpt body "result")) then 1 else 0))]
  else if negb (isUndefined (getOpt body "count"))
  then [("X-Count", getOpt body "count")]
  else [].

(** The headers an error supplies, "each header value flattened from
    singular-or-array form". *)
Definition suppliedHeaders (error : value) : list (string * value) :=
  if truthy (get error "headers") then
    flat_map
      (fun kv =>
         (fun h => (kv.1, h))
           <$> RESTInterfaceHandler.concatOnto
                 (js_or (get (get error "headers") kv.1) (VStr "")))
      (ownEntries (get error "headers"))
  else [].

Definition errorHeaders (body : value) : list (string * value) :=
  if truthy (getOpt body "error") then suppliedHeaders (getOpt body "error")
  else [].



(** What a computation leaves untouched, as relations between the world
    before and after. *)
Definition sameResponse (w w' : World) : Prop := res w' = res w.
Definition sameWritten (w w' : World) : Prop := written (res w') = written (res w).
Definition noNewRead (w w' : World) : Prop :=
  filter (fun e => isReadStream e = true) (io w')
  = filter (fun e => isReadStream e = true) (io w).
Definition noNewDeserialize (w w' : World) : Prop :=
  filter (fun e => isDeserialize e = true) (io w')
  = filter (fun e => isDeserialize e = true) (io w).

(** ** A concrete deployment

    A handler at [http://localhost:3000] with a JSON codec, used to run the
    code on concrete exchanges.  Each collaborator answers the inputs used
    below as its library does. *)

Module Demo.
Import ModelInterfaceRequestMethods RESTInterfaceHandler.

Definition base : string := "http://localhost:3000".

(** The part of [s] from the first [c] on. *)
Fixpoint fromChar (c : ascii) (s : string) : string :=
  match s with
  | EmptyString => EmptyString
  | String a rest => if Ascii.eqb a c then s else fromChar c rest
  end.

Fixpoint splitOn (c : ascii) (cur s : string) : list string :=
  match s with
  | EmptyString => [cur]
  | String a rest =>
      if Ascii.eqb a c then cur :: splitOn c "" rest
      else splitOn c (cur +:+ String a EmptyString) rest
  end.

Definition resolve (url b : string) : outcome URL :=
  Returned {| href := b +:+ url;
              pathname := upTo "?"%char url;
              search := fromChar "?"%char url |}.

Definition addToPathname (u : URL) (id : value) : URL :=
  let p := pathname u +:+ match id with VStr s => s | _ => "" end in
  {| href := base +:+ p +:+ search u; pathname := p; search := search u |}.

Definition parseQuery (s : string) (_ : ParseOptions) : list (string * value) :=
  if String.eqb s "?query=1" then [("query", VNum 1)]
  else if String.eqb s "?limit=5" then [("limit", VNum 5)]
  else [].

Definition time (v : value) : option Z :=
  match v with
  | VNum n => Some n
  | VStr s =>
      if String.eqb s "Thu, 01 Jan 1970 00:00:01 GMT" then Some 1000
      else if String.eqb s "Thu, 01 Jan 1970 00:00:02 GMT" then Some 2000
      else None
  | _ => None
  end.

Definition iso (ms : Z) : string :=
  if ms =? 1000 then "1970-01-01T00:00:01.000Z"
  else if ms =? 2000 then "1970-01-01T00:00:02.000Z"
  else "1970-01-01T00:00:00.000Z".

Definition platform : Platform :=
  {| newURL := resolve;
     appendToPathname := addToPathname;
     qs_parse := parseQuery;
     castPath := fun path _ => splitOn "."%char "" path;
     dateTime := time;
     isoString := iso |}.

(** The bytes every response serializes to. *)
Definition responseBytes : Buffer := [Byte.x7b; Byte.x2e; Byte.x7d].

Definition json : IEncodeTools :=
  {| deserializeObject := fun _ _ => Returned (VObj []);
     serializeObject := fun _ _ => Returned responseBytes;
     headerToSerializationFormat := fun _ _ => ("json", "application/json") |}.

Definition doc (updatedAt : Z) : value :=
  VObj [("_id", VStr "abc"); ("updatedAt", VNum updatedAt)].

(** A Simple Interface over a collection of [n] documents of which [found]
    is the one a single-document query finds ([null] when there is none).  It
    answers as the REST tests see it answer: a [result], [results], a [count]
    or an [id], and no body for [update], [patch] and [delete]. *)
Definition answering (found : value) (all : list value) (n : Z)
  : SimpleModelInterface.t :=
  {| SimpleModelInterface.execute := fun r =>
       Returned
         {| resp_method := Some (req_method r);
            resp_body :=
              match req_method r with
              | find => VObj [("results", VArr all)]
              | findOne | findById => VObj [("result", found)]
              | count => VObj [("count", VNum n)]
              | create => VObj [("id", VStr "abc")]
              | update | patch | delete => VUndefined
              end |} |}.

(** A store holding one document, [abc]. *)
Definition store (updatedAt : Z) : SimpleModelInterface.t :=
  answering (doc updatedAt) [doc updatedAt] 1.

(** A store without the document asked for. *)
Definition emptyStore : SimpleModelInterface.t := answering VNull [] 0.

Definition handlerOn (si : SimpleModelInterface.t)
    (popts : option RESTInterfaceParserOptions) : RESTInterfaceHandler.t :=
  {| modelInterface := si;
     urlBase := base;
     options := {| encoder := json;
                   queryStringOptions := DEFAULT_PARSE_OPTIONS;
                   parseOptions := popts |} |}.

Definition handler : RESTInterfaceHandler.t := handlerOn (store 1000) None.

Definition request (verb url : string) (headers : list (string * string))
  : IncomingMessage :=
  {| http_method := verb; http_url := url; http_headers := headers;
     http_body := VUndefined; http_stream := Returned [] |}.

Definition only (ms : list Method) : RESTInterfaceParserOptions :=
  {| skipParseBody := None; upsert := None; allowedMethods := Some ms;
     lastModifiedField := None |}.

(** The world once the (empty) request stream has been read. *)
Definition afterRead : World := {| res := freshResponse; io := [ReadStream] |}.

Definition ifModifiedSince (date : string) : list (string * string) :=
  [("if-modified-since", date)].

(** The same request with a buffer attached as [req.body]. *)
Definition attached (b : Buffer) (req : IncomingMessage) : IncomingMessage :=
  {| http_method := http_method req; http_url := http_url req;
     http_headers := http_headers req; http_body := VBuf b;
     http_stream := http_stream req |}.

(** A Simple Interface over the model [Bar], as the RPC constructor sees it. *)
Definition simpleInterface : RPCInterface.SimpleInterfaceObject :=
  {| RPCInterface.ownProperties := [];
     RPCInterface.prototypeProperties :=
       [ ("constructor", RPCInterface.Fn "SimpleModelInterface");
         ("find", RPCInterface.Fn "find");
         ("count", RPCInterface.Fn "count");
         ("execute", RPCInterface.Fn "execute") ];
     RPCInterface.modelName := "Bar" |}.
End Demo.

(** The same request with nothing attached as [req.body]. *)
Definition withoutBody (req : IncomingMessage) : IncomingMessage :=
  {| http_method := http_method req; http_url := http_url req;
     http_headers := http_headers req; http_body := VUndefined;
     http_stream := http_stream req |}.

(** The same parse options, told to skip the body. *)
Definition skipping (opts : option RESTInterfaceHandler.RESTInterfaceParserOptions)
  : option RESTInterfaceHandler.RESTInterfaceParserOptions :=
  Some {| RESTInterfaceHandler.skipParseBody := Some true;
          RESTInterfaceHandler.upsert :=
            o ← opts; RESTInterfaceHandler.upsert o;
          RESTInterfaceHandler.allowedMethods :=
            o ← opts; RESTInterfaceHandler.allowedMethods o;
          RESTInterfaceHandler.lastModifiedField :=
            o ← opts; RESTInterfaceHandler.lastModifiedField o |}.

(** The body buffer is there and has length zero: attached as [req.body], or
    read from the stream. *)
Definition zeroLengthBody (req : IncomingMessage)
    (opts : option RESTInterfaceHandler.RESTInterfaceParserOptions) : Prop :=
  http_body req = VBuf []
  \/ ((forall b, http_body req <> VBuf b)
      /\ RESTInterfaceHandler.flag opts RESTInterfaceHandler.skipParseBody = false
      /\ http_stream req = Returned []).

(** ** RESTInterfaceHandler.ts, the earlier version

    [src/RESTInterfaceHandler.ts]: the handler before parse options,
    conditional GET, 404 and [X-Count] were added.  It has the same
    collaborators and the same handler object (its options carry no
    [parseOptions]). *)

Module EarlierRESTInterfaceHandler.
Import ModelInterfaceRequestMethods RESTInterfaceHandler.

(** This version's error class has no sentinel field. *)
Definition InvalidHTTPMethodError (verb : string) : value :=
  VObj [ ("message", VStr ("Invalid HTTP method " +:+ verb)) ].

Definition resolveMethod (verb : string) (hasPathname : bool) : option Method :=
  orElse (whenVerb verb "POST" create)
 (orElse (whenVerb verb "PUT" update)
 (orElse (whenVerb verb "PATCH" patch)
 (orElse (whenVerb verb "DELETE" delete)
 (orElse (whenVerb verb "HEAD" count)
 (orElse (Some (if hasPathname then findById else find))
         None))))).

Section Handler.
Variable pf : Platform.
Variable this : RESTInterfaceHandler.t.

Definition interfaceRequestFromHttpRequest (req : IncomingMessage)
  : M ModelInterfaceRequest :=
  let! parsedUrl := liftOutcome (parseUrl pf this req) in
  let! raw := getRawBody req in
  let buf := if (length raw =? 0)%nat then None else Some raw in
  let targetId := dropChars 1 (pathname parsedUrl) in
  let hasPathname := negb (String.eqb targetId "") in
  match resolveMethod (http_method req) hasPathname with
  | None => throw (InvalidHTTPMethodError (http_method req))
  | Some method =>
      let body := VObj [] in
      let body :=
        if hasPathname then lodash_set body ["query"; "_id"] (VStr targetId)
        else body in
      let! body := mergeBody this req buf body in
      let q := qs_parse pf (search parsedUrl) (queryStringOptions (options this)) in
      let body := overrideWithQueryString pf q body in
      ret {| req_method := method; req_body := body |}
  end.

(** The rendering part of [execute]. *)
Definition renderResponse (httpReq : IncomingMessage)
    (resp : ModelInterfaceResponse) : M unit :=
  let body := resp_body resp in
  if isUndefined body || isNull body then
    setStatus (VNum 204)
  else if isCreate (resp_method resp) && truthy (getOpt body "id") then
    let! url := liftOutcome (parseUrl pf this httpReq) in
    let url := appendToPathname pf url (getOpt body "id") in
    setStatus (VNum 201) >>
    setHeader "Location" (VStr (href url))
  else
    let '(serializationFormat, mimeType) :=
      headerToSerializationFormat (encoder (options this)) httpReq "accept" in
    setHeader "Content-Type" (VStr mimeType) >>
    (if truthy (getOpt body "error") then
       setStatus (js_or (get (getOpt body "error") "httpCode") (VNum 500))
     else setStatus (VNum 200)) >>
    let! chunk :=
      liftOutcome (serializeObject (encoder (options this)) body
                     serializationFormat) in
    write chunk.

Definition execute (httpReq : IncomingMessage) : M unit :=
  let! req := interfaceRequestFromHttpRequest httpReq in
  let! resp :=
    liftOutcome (SimpleModelInterface.execute (modelInterface this) req) in
  renderResponse httpReq resp >> endResponse.
End Handler.
End EarlierRESTInterfaceHandler.

(** ** RESTInterfaceMiddleware.ts *)

Module RESTInterfaceMiddleware.

(** The [req] argument: an [IncomingMessage] (by class or by the name of its
    constructor), or a [ClientRequest], for which the middleware waits on
    [res] for a ['response'] event (the promise resolves with the message) or
    an ['error'] event (it rejects); [None] when neither event ever fires. *)
Inductive Request : Type :=
| Incoming (msg : IncomingMessage)
| Client (event : option (outcome IncomingMessage)).

Section Middleware.
Variable pf : Platform.
Variable modelInterface : RESTInterfaceHandler.t.

(** [RESTInterfaceMiddlewareInner]: [None] is a promise that never settles.
    [execute] is called with two arguments, so its [opts] is [undefined]. *)
Definition RESTInterfaceMiddlewareInner (req : Request) (w : World)
  : option (outcome unit * World) :=
  match req with
  | Incoming msg => Some (RESTInterfaceHandler.execute pf modelInterface msg None w)
  | Client (Some (Returned msg)) =>
      Some (RESTInterfaceHandler.execute pf modelInterface msg None w)
  | Client (Some (Thrown err)) => Some (Thrown err, w)
  | Client None => None
  end.

(** What a run of the middleware leaves behind: the arguments the callback
    was called with, in order ([null] is [VNull]), the rejection nobody
    handles, if any, and the world. *)
Record Run : Type := {
  calls : list value;
  unhandled : option value;
  after : World
}.

(** [.catch((err) => callback(err))]. *)
Definition catchWith (callback : value -> outcome unit) (before : list value)
    (err : value) (w : World) : Run :=
  match callback err with
  | Returned _ => {| calls := before ++ [err]; unhandled := None; after := w |}
  | Thrown e => {| calls := before ++ [err]; unhandled := Some e; after := w |}
  end.

(** [RESTInterfaceMiddlewareHandler]: [inner.then(() => callback(null))
    .catch((err) => callback(err))]. *)
Definition RESTInterfaceMiddlewareHandler (req : Request)
    (callback : value -> outcome unit) (w : World) : Run :=
  match RESTInterfaceMiddlewareInner req w with
  | None => {| calls := []; unhandled := None; after := w |}
  | Some (Returned _, w') =>
      match callback VNull with
      | Returned _ => {| calls := [VNull]; unhandled := None; after := w' |}
      | Thrown e => catchWith callback [VNull] e w'
      end
  | Some (Thrown err, w') => catchWith callback [] err w'
  end.
End Middleware.

(** [RESTInterfaceMiddleware(modelInterface)]: the handler with its first
    argument bound. *)
Definition RESTInterfaceMiddleware (pf : Platform)
    (modelInterface : RESTInterfaceHandler.t)
  : Request -> (value -> outcome unit) -> World -> Run :=
  RESTInterfaceMiddlewareHandler pf modelInterface.
End RESTInterfaceMiddleware.

(** ** Further vocabulary *)

(** The character [c] occurs in [s]. *)
Fixpoint occurs (c : ascii) (s : string) : bool :=
  match s with
  | EmptyString => false
  | String a rest => Ascii.eqb a c || occurs c rest
  end.

(** A URL tail: nothing, a query string or a fragment. *)
Definition isTail (s : string) : bool :=
  match s with
  | EmptyString => true
  | String a _ => Ascii.eqb a "?"%char || Ascii.eqb a "#"%char
  end.

(** Parse options with one field replaced. *)
Definition withLastModifiedField (f : option string)
    (o : RESTInterfaceHandler.RESTInterfaceParserOptions)
  : RESTInterfaceHandler.RESTInterfaceParserOptions :=
  {| RESTInterfaceHandler.skipParseBody := RESTInterfaceHandler.skipParseBody o;
     RESTInterfaceHandler.upsert := RESTInterfaceHandler.upsert o;
     RESTInterfaceHandler.allowedMethods := RESTInterfaceHandler.allowedMethods o;
     RESTInterfaceHandler.lastModifiedField := f |}.

Definition withAllowedMethods (ms : option (list Method))
    (o : RESTInterfaceHandler.RESTInterfaceParserOptions)
  : RESTInterfaceHandler.RESTInterfaceParserOptions :=
  {| RESTInterfaceHandler.skipParseBody := RESTInterfaceHandler.skipParseBody o;
     RESTInterfaceHandler.upsert := RESTInterfaceHandler.upsert o;
     RESTInterfaceHandler.allowedMethods := ms;
     RESTInterfaceHandler.lastModifiedField :=
       RESTInterfaceHandler.lastModifiedField o |}.

(** The handler with other parse options. *)
Definition withParseOptions
    (p : option RESTInterfaceHandler.RESTInterfaceParserOptions)
    (this : RESTInterfaceHandler.t) : RESTInterfaceHandler.t :=
  {| RESTInterfaceHandler.modelInterface := RESTInterfaceHandler.modelInterface this;
     RESTInterfaceHandler.urlBase := RESTInterfaceHandler.urlBase this;
     RESTInterfaceHandler.options :=
       {| RESTInterfaceHandler.encoder :=
            RESTInterfaceHandler.encoder (RESTInterfaceHandler.options this);
          RESTInterfaceHandler.queryStringOptions :=
            RESTInterfaceHandler.queryStringOptions (RESTInterfaceHandler.options this);
          RESTInterfaceHandler.parseOptions := p |} |}.

(** The keys the RPC constructor writes: one per property name it does not
    skip. *)
Definition registrationKeys (prefix : string) (names : list string) : list string :=
  (fun k => prefix +:+ k) <$> filter (fun k => excluded k = false) names.

(** ** Further scenarios on the concrete deployment *)

Module Scenarios.
Import ModelInterfaceRequestMethods RESTInterfaceHandler Demo.

(** A codec that deserializes every buffer to [parsed]. *)
Definition jsonOf (parsed : value) : IEncodeTools :=
  {| deserializeObject := fun _ _ => Returned parsed;
     serializeObject := fun _ _ => Returned responseBytes;
     headerToSerializationFormat := fun _ _ => ("json", "application/json") |}.

Definition handlerWith (enc : IEncodeTools) (si : SimpleModelInterface.t)
    (popts : option RESTInterfaceParserOptions) : RESTInterfaceHandler.t :=
  {| modelInterface := si;
     urlBase := base;
     options := {| encoder := enc;
                   queryStringOptions := DEFAULT_PARSE_OPTIONS;
                   parseOptions := popts |} |}.

(** The object a client posts. *)
Definition posted : value :=
  VObj [ ("fields", VObj [("name", VStr "a")]);
         ("query", VObj [("limit", VNum 1)]) ].

(** A request whose stream yields one byte. *)
Definition upload (verb url : string) : IncomingMessage :=
  {| http_method := verb; http_url := url; http_headers := [];
     http_body := VUndefined; http_stream := Returned [Byte.x7b] |}.

(** A request whose stream fails. *)
Definition aborted (verb url : string) : IncomingMessage :=
  {| http_method := verb; http_url := url; http_headers := [];
     http_body := VUndefined; http_stream := Thrown (VStr "aborted") |}.

(** A store holding the one document [d]. *)
Definition storeOf (d : value) : SimpleModelInterface.t := answering d [d] 1.

(** A document whose timestamp is no date. *)
Definition undated : value :=
  VObj [("_id", VStr "abc"); ("updatedAt", VStr "yesterday")].

Definition skipBody : RESTInterfaceParserOptions :=
  {| skipParseBody := Some true; upsert := None; allowedMethods := None;
     lastModifiedField := None |}.

(** A Simple Interface whose prototype has a getter among its methods. *)
Definition interfaceWithGetter : RPCInterface.SimpleInterfaceObject :=
  {| RPCInterface.ownProperties := [];
     RPCInterface.prototypeProperties :=
       [ ("constructor", RPCInterface.Fn "SimpleModelInterface");
         ("find", RPCInterface.Fn "find");
         ("name", RPCInterface.NotFn (VStr "Bar"));
         ("count", RPCInterface.Fn "count") ];
     RPCInterface.modelName := "Bar" |}.

(** A callback that does not throw, and one that throws when told of
    success. *)
Definition quiet (_ : value) : outcome unit := Returned tt.

Definition fussy (v : value) : outcome unit :=
  match v with
  | VNull => Thrown (VStr "late")
  | _ => Returned tt
  end.
End Scenarios.

(** * Properties *)

(** ** Values *)


Lemma lookup_assign_eq k v kvs :
  Fields.lookup k (Fields.assign k v kvs) = v.
Proof.
  induction kvs as [|[k' v'] rest IH]; simpl.
  - by rewrite String.eqb_refl.
  - destruct (String.eqb k' k) eqn:E; simpl.
    + by rewrite String.eqb_refl.
    + by rewrite E.
Qed.

Lemma lookup_assign_ne k k' v kvs :
  k <> k' -> Fields.lookup k' (Fields.assign k v kvs) = Fields.lookup k' kvs.
Proof.
  intros Hne. induction kvs as [|[k0 v0] rest IH]; simpl.
  - destruct (String.eqb k k') eqn:E; [|done].
    apply String.eqb_eq in E. contradiction.
  - destruct (String.eqb k0 k) eqn:E; simpl.
    + apply String.eqb_eq in E. subst k0.
      destruct (String.eqb k k') eqn:E'; [|done].
      apply String.eqb_eq in E'. contradiction.
    + destruct (String.eqb k0 k'); [done | apply IH].
Qed.

(** ** wrapError *)

Lemma carriesSentinel_wrapError e : carriesSentinel (wrapError e) = true.
Proof.
  unfold wrapError. destruct (carriesSentinel e) eqn:E; [exact E | reflexivity].
Qed.

(** C8. Wrapping is idempotent: an error that carries the
    [isModelInterfaceError] sentinel is returned unchanged, and any other error
    becomes a Wrapped Error that carries the sentinel, has the original error
    as [innerError], and the original [message] and [stack]. *)
Theorem wrapError_idempotent (e : value) :
  wrapError (wrapError e) = wrapError e
  /\ (if carriesSentinel e then wrapError e = e
      else carriesSentinel (wrapError e) = true
           /\ get (wrapError e) "isModelInterfaceError" = IsModelInterfaceError
           /\ get (wrapError e) "innerError" = e
           /\ get (wrapError e) "message" = getOpt e "message"
           /\ get (wrapError e) "stack" = getOpt e "stack").
Proof.
  split.
  - unfold wrapError at 1. by rewrite carriesSentinel_wrapError.
  - destruct (carriesSentinel e) eqn:E.
    + unfold wrapError. by rewrite E.
    + unfold wrapError. rewrite E. repeat split; reflexivity.
Qed.

(** ** RPCInterface *)

Lemma append_inj_r (p a b : string) : p +:+ a = p +:+ b -> a = b.
Proof.
  induction p as [|c p IH]; simpl; [done|].
  intros H. injection H as H. by apply IH.
Qed.

Lemma excluded_false k :
  k <> "constructor" -> k <> "execute" -> excluded k = false.
Proof.
  intros H1 H2. unfold excluded.
  destruct (String.eqb k "constructor") eqn:E1.
  { apply String.eqb_eq in E1. contradiction. }
  destruct (String.eqb k "execute") eqn:E2; [|done].
  apply String.eqb_eq in E2. contradiction.
Qed.

Section RPCInterfaceProperties.
Import RPCInterface.
Variable mi : SimpleInterfaceObject.
Variable methodPrefix : option string.

Lemma register_frame k methods o methods' key :
  register mi methodPrefix k methods = (o, methods') ->
  key <> (rpcInterfaceMethodPrefix mi methodPrefix) +:+ k ->
  methods' !! key = methods !! key.
Proof.
  unfold register. intros H Hne.
  destruct (String.eqb k "constructor" || String.eqb k "execute").
  { by inversion H. }
  destruct (property mi k) as [[f|v]|]; inversion H; subst; try done.
  by rewrite lookup_insert_ne.
Qed.

Lemma registerAll_frame names : forall methods o methods' key,
  registerAll mi methodPrefix names methods = (o, methods') ->
  (forall k, k ∈ names -> key <> (rpcInterfaceMethodPrefix mi methodPrefix) +:+ k) ->
  methods' !! key = methods !! key.
Proof.
  induction names as [|k rest IH]; simpl; intros methods o methods' key H Hne.
  - by inversion H.
  - destruct (register mi methodPrefix k methods) as [[[]|e] m1] eqn:R.
    + rewrite (IH _ _ _ _ H); [|intros; apply Hne; set_solver].
      eapply register_frame; [exact R|]. apply Hne. set_solver.
    + inversion H; subst.
      eapply register_frame; [exact R|]. apply Hne. set_solver.
Qed.

Lemma registerAll_registers names : forall methods,
  (forall k, k ∈ names -> excluded k = false ->
             exists f, property mi k = Some (Fn f)) ->
  exists methods',
    registerAll mi methodPrefix names methods = (Returned tt, methods')
    /\ forall k, k ∈ names -> excluded k = false -> registeredAs mi (rpcInterfaceMethodPrefix mi methodPrefix) k methods'.
Proof.
  induction names as [|k rest IH]; intros methods Hfn; simpl.
  - eexists; split; [reflexivity|]. intros k Hk. set_solver.
  - assert (exists m1, register mi methodPrefix k methods = (Returned tt, m1)
                       /\ (excluded k = false -> registeredAs mi (rpcInterfaceMethodPrefix mi methodPrefix) k m1))
      as (m1 & R & Hk).
    { unfold register. fold (excluded k).
      destruct (excluded k) eqn:Ex.
      - eexists; split; [reflexivity | done].
      - destruct (Hfn k) as [f Hf]; [set_solver | done |].
        rewrite Hf. eexists; split; [reflexivity|].
        intros _. exists f. split; [done|]. apply lookup_insert_eq. }
    rewrite R.
    destruct (IH m1) as (m2 & R2 & Hrest).
    { intros k' Hk'. apply Hfn. set_solver. }
    exists m2. split; [exact R2|].
    intros k' Hin Hex.
    destruct (decide (k' ∈ rest)) as [Hr|Hr]; [by apply Hrest|].
    apply elem_of_cons in Hin as [->|?]; [|done].
    destruct (Hk Hex) as (f & Hf & Hm).
    exists f. split; [done|].
    rewrite <- Hm.
    eapply registerAll_frame; [exact R2|].
    intros k'' Hk'' Heq. apply append_inj_r in Heq. subst k''. contradiction.
Qed.

(** C9. When the prototype's properties other than [constructor] and [execute]
    are functions, the constructor completes and, for each of them, the
    registry holds under [rpcInterfaceMethodPrefix + k] the Simple Interface's
    method [k] bound to the Simple Interface; the (rpcInterfaceMethodPrefix mi methodPrefix) is [methodPrefix] (the
    empty string when not given) followed by the model name and [":"]. *)
Theorem constructor_registers_bound_methods
    (methods : gmap string BoundFunction) :
  (forall k, k ∈ (fst <$> prototypeProperties mi) ->
             k <> "constructor" -> k <> "execute" ->
             exists f, property mi k = Some (Fn f)) ->
  rpcInterfaceMethodPrefix mi methodPrefix
    = default "" methodPrefix +:+ modelName mi +:+ ":"
  /\ exists methods',
       construct mi methodPrefix methods = (Returned tt, methods')
       /\ forall k, k ∈ (fst <$> prototypeProperties mi) ->
                    k <> "constructor" -> k <> "execute" ->
                    exists f,
                      property mi k = Some (Fn f)
                      /\ methods' !! (rpcInterfaceMethodPrefix mi methodPrefix +:+ k)
                         = Some {| targetFunction := f; boundThis := mi |}.
Proof.
  intros Hfn. split.
  - unfold rpcInterfaceMethodPrefix.
    destruct methodPrefix as [p|]; simpl; [|done].
    destruct (String.eqb p "") eqn:E; simpl; [|done].
    apply String.eqb_eq in E. by subst p.
  - destruct (registerAll_registers (fst <$> prototypeProperties mi) methods)
      as (m' & R & Hreg).
    { intros k Hk Hex. unfold excluded in Hex.
      apply orb_false_iff in Hex as [E1 E2].
      apply Hfn; [done| |]; intros ->; simpl in *; discriminate. }
    exists m'. split; [exact R|].
    intros k Hk H1 H2. apply Hreg; [done | by apply excluded_false].
Qed.
End RPCInterfaceProperties.

(** ** The monad: what a computation leaves untouched *)

Section Frame.
Variable R : World -> World -> Prop.
Hypothesis R_refl : forall w, R w w.
Hypothesis R_trans : forall a b c, R a b -> R b c -> R a c.

Lemma respects_ret {A} (a : A) : forall w, R w (ret a w).2.
Proof. intros w. apply R_refl. Qed.

Lemma respects_throw {A} (e : value) : forall w, R w (@throw A e w).2.
Proof. intros w. apply R_refl. Qed.

Lemma respects_liftOutcome {A} (o : outcome A) : forall w, R w (liftOutcome o w).2.
Proof. intros w. apply R_refl. Qed.

Lemma respects_bind {A B} (m : M A) (k : A -> M B) :
  (forall w, R w (m w).2) ->
  (forall a w, R w (k a w).2) ->
  forall w, R w (bind m k w).2.
Proof.
  intros Hm Hk w. unfold bind. specialize (Hm w).
  destruct (m w) as [[a|e] w']; simpl in *; [|done].
  eapply R_trans; [exact Hm | apply Hk].
Qed.

Lemma respects_tryCatch {A} (m : M A) (h : value -> M A) :
  (forall w, R w (m w).2) ->
  (forall e w, R w (h e w).2) ->
  forall w, R w (tryCatch m h w).2.
Proof.
  intros Hm Hh w. unfold tryCatch. specialize (Hm w).
  destruct (m w) as [[a|e] w']; simpl in *; [done|].
  eapply R_trans; [exact Hm | apply Hh].
Qed.

Lemma respects_forEach {A} (items : list A) (body : A -> M unit) :
  (forall x w, R w (body x w).2) ->
  forall w, R w (forEach items body w).2.
Proof.
  intros Hb. induction items as [|x rest IH]; simpl.
  - apply (respects_ret tt).
  - apply respects_bind; [apply Hb | intros _; apply IH].
Qed.
End Frame.

(** ** The response object *)

Lemma withHeaders_nil w : withHeaders [] w = w.
Proof.
  destruct w as [[c hs ws e] l]. unfold withHeaders; simpl.
  by rewrite app_nil_r.
Qed.

Lemma withHeaders_app a b w :
  withHeaders b (withHeaders a w) = withHeaders (a ++ b) w.
Proof. unfold withHeaders; simpl. by rewrite app_assoc. Qed.

Lemma forEach_setHeader (k : string) (items : list value) : forall w,
  forEach items (fun h => setHeader k h) w
  = (Returned tt, withHeaders ((fun h => (k, h)) <$> items) w).
Proof.
  induction items as [|x rest IH]; intros w; simpl.
  - unfold ret. by rewrite withHeaders_nil.
  - unfold bind. change (setHeader k x w) with (Returned tt, withHeaders [(k, x)] w).
    simpl. rewrite IH. by rewrite withHeaders_app.
Qed.

Lemma forEach_entries (entries : list (string * value)) (f : string -> list value) :
  forall w,
    forEach entries (fun kv => forEach (f kv.1) (fun h => setHeader kv.1 h)) w
    = (Returned tt,
       withHeaders (flat_map (fun kv => (fun h => (kv.1, h)) <$> f kv.1) entries) w).
Proof.
  induction entries as [|kv rest IH]; intros w; simpl.
  - unfold ret. by rewrite withHeaders_nil.
  - unfold bind. rewrite forEach_setHeader. simpl.
    rewrite IH. by rewrite withHeaders_app.
Qed.

Lemma lastHeader_app_last k v hs :
  lastHeader k (hs ++ [(k, v)]) = Some v.
Proof.
  induction hs as [|[k' v'] rest IH]; simpl.
  - by rewrite String.eqb_refl.
  - by rewrite IH.
Qed.

(** ** Deduplication *)

Lemma optStringEqb_eq a b : optStringEqb a b = true <-> a = b.
Proof.
  destruct a as [x|], b as [y|]; simpl; try (split; intros; congruence).
  rewrite String.eqb_eq. split; intros; congruence.
Qed.

Lemma existsb_optStringEqb x seen :
  existsb (optStringEqb x) seen = true <-> x ∈ seen.
Proof.
  rewrite existsb_exists. split.
  - intros (y & Hy & E). apply optStringEqb_eq in E. subst y.
    by apply list_elem_of_In.
  - intros H. exists x. split; [by apply list_elem_of_In | by apply optStringEqb_eq].
Qed.

Lemma elem_of_uniqueFrom l : forall seen x,
  x ∈ uniqueFrom seen l <-> x ∈ l /\ x ∉ seen.
Proof.
  induction l as [|x0 rest IH]; intros seen x; simpl.
  - set_solver.
  - destruct (existsb (optStringEqb x0) seen) eqn:E.
    + apply existsb_optStringEqb in E. rewrite IH. set_solver.
    + assert (x0 ∉ seen) as Hn.
      { intros H. apply existsb_optStringEqb in H. congruence. }
      rewrite elem_of_cons, IH.
      destruct (decide (x = x0)) as [->|Hne]; set_solver.
Qed.

Lemma NoDup_uniqueFrom l : forall seen, NoDup (uniqueFrom seen l).
Proof.
  induction l as [|x0 rest IH]; intros seen; simpl.
  - constructor.
  - destruct (existsb (optStringEqb x0) seen); [apply IH|].
    constructor; [|apply IH].
    rewrite elem_of_uniqueFrom. set_solver.
Qed.

Lemma unique_spec l :
  NoDup (unique l) /\ forall x, x ∈ unique l <-> x ∈ l.
Proof.
  split; [apply NoDup_uniqueFrom|].
  intros x. unfold unique. rewrite elem_of_uniqueFrom. set_solver.
Qed.

Section RESTProperties.
Import RESTInterfaceHandler.
Variable pf : Platform.
Variable this : t.

Lemma replayHeaders_run error w :
  replayHeaders error w = (Returned tt, withHeaders (suppliedHeaders error) w).
Proof.
  unfold replayHeaders, suppliedHeaders.
  destruct (truthy (get error "headers")).
  - apply (forEach_entries _
             (fun k => concatOnto (js_or (get (get error "headers") k) (VStr "")))).
  - unfold ret. by rewrite withHeaders_nil.
Qed.

(** What [renderResponse] does to the response, branch by branch. *)
Lemma renderResponse_run httpReq resp w :
  renderResponse pf this httpReq resp w
  = match branchOf resp with
    | NoContent => (Returned tt, withStatus (VNum 204) w)
    | NotFound => (Returned tt, withStatus (VNum 404) w)
    | Created =>
        match parseUrl pf this httpReq with
        | Returned u =>
            (Returned tt,
             withHeaders
               [("Location",
                 VStr (href (appendToPathname pf u (getOpt (resp_body resp) "id"))))]
               (withStatus (VNum 201) w))
        | Thrown e => (Thrown e, w)
        end
    | Negotiated =>
        let fm := headerToSerializationFormat (encoder (options this)) httpReq "accept" in
        let w1 :=
          withHeaders (errorHeaders (resp_body resp))
            (withStatus (statusPerSpec resp)
               (withHeaders (xCountHeaders (http_method httpReq) (resp_body resp))
                  (withHeaders [("Content-Type", VStr fm.2)] w))) in
        if String.eqb (http_method httpReq) "HEAD" then (Returned tt, w1)
        else
          match serializeObject (encoder (options this)) (stripSentinel (resp_body resp)) fm.1 with
          | Returned chunk => (Returned tt, withWritten [chunk] w1)
          | Thrown e => (Thrown e, w1)
          end
    end.
Proof.
  unfold renderResponse, statusPerSpec, branchOf, xCountHeaders, errorHeaders.
  destruct (isUndefined (resp_body resp) || isNull (resp_body resp)); [done|].
  destruct (isNull (getOpt (resp_body resp) "result")) eqn:En; [done|].
  destruct (isCreate (resp_method resp) && truthy (getOpt (resp_body resp) "id")).
  { unfold bind, liftOutcome.
    by destruct (parseUrl pf this httpReq). }
  destruct (headerToSerializationFormat _ httpReq "accept") as [fmt mime].
  cbn [fst snd negb].
  unfold bind.
  destruct (negb (isUndefined (getOpt (resp_body resp) "result"))
            && String.eqb (http_method httpReq) "HEAD") eqn:E1;
    [| destruct (negb (isUndefined (getOpt (resp_body resp) "count"))) eqn:E2 ];
    (destruct (truthy (getOpt (resp_body resp) "error")) eqn:E3;
     [ cbn [setHeader setStatus updRes ret]; rewrite replayHeaders_run
     | cbn [setHeader setStatus updRes ret] ];
     (destruct (String.eqb (http_method httpReq) "HEAD") eqn:E4;
      [| unfold liftOutcome; destruct (serializeObject _ _ _) ]);
     unfold ret, write, updRes, withWritten, withHeaders, withStatus; cbn;
     rewrite ?app_nil_r, <- ?app_assoc; reflexivity).
Qed.

(** *** What the phases of [execute] leave untouched *)

Lemma sameResponse_refl w : sameResponse w w.
Proof. reflexivity. Qed.

Lemma sameResponse_trans a b c :
  sameResponse a b -> sameResponse b c -> sameResponse a c.
Proof. unfold sameResponse. congruence. Qed.

Lemma readBody_sameResponse req opts w :
  sameResponse w (readBody req opts w).2.
Proof.
  unfold readBody, getRawBody, bind, ret, liftOutcome, logEvent, sameResponse.
  repeat case_match; simplify_eq; reflexivity.
Qed.

Lemma mergeBody_sameResponse req buf body w :
  sameResponse w (mergeBody this req buf body w).2.
Proof.
  unfold mergeBody, bind, ret, liftOutcome, logEvent, sameResponse.
  repeat case_match; simplify_eq; reflexivity.
Qed.

Lemma buildRequest_sameResponse req opts u buf w :
  sameResponse w (buildRequest pf this req opts u buf w).2.
Proof.
  unfold buildRequest.
  destruct (resolveMethod _ _); [|apply sameResponse_refl].
  destruct (notAllowed _ _); [apply sameResponse_refl|].
  revert w. apply (respects_bind _ sameResponse_trans);
    [apply mergeBody_sameResponse | intros; apply sameResponse_refl].
Qed.

Lemma interfaceRequest_sameResponse req opts w :
  sameResponse w (interfaceRequestFromHttpRequest pf this req opts w).2.
Proof.
  revert w. unfold interfaceRequestFromHttpRequest.
  apply (respects_bind _ sameResponse_trans);
    [apply (respects_liftOutcome _ sameResponse_refl)|].
  intros u. apply (respects_bind _ sameResponse_trans);
    [apply readBody_sameResponse|].
  intros buf w1. apply buildRequest_sameResponse.
Qed.

Lemma obtainResponse_sameResponse req opts w :
  sameResponse w (obtainResponse pf this req opts w).2.
Proof.
  revert w. unfold obtainResponse.
  apply (respects_bind _ sameResponse_trans).
  - apply (respects_tryCatch _ sameResponse_trans).
    + apply (respects_bind _ sameResponse_trans);
        [apply interfaceRequest_sameResponse | intros; apply sameResponse_refl].
    + intros; apply sameResponse_refl.
  - intros [r|resp] w; apply sameResponse_refl.
Qed.

Lemma conditionalGet_sameWritten req opts resp w :
  sameWritten w (conditionalGet pf req opts resp w).2.
Proof.
  unfold conditionalGet, sameWritten.
  destruct (truthy _ && truthy _); [|done].
  destruct (notModified _ _); [done|].
  unfold bind, liftOutcome.
  by destruct (toISOString _ _).
Qed.

Lemma renderResponse_HEAD_sameWritten req resp w :
  http_method req = "HEAD" ->
  sameWritten w (renderResponse pf this req resp w).2.
Proof.
  intros Hv. rewrite renderResponse_run. unfold sameWritten.
  destruct (branchOf resp); try done.
  - by destruct (parseUrl pf this req).
  - by rewrite Hv.
Qed.

Lemma execute_HEAD_sameWritten req opts w :
  http_method req = "HEAD" ->
  sameWritten w (execute pf this req opts w).2.
Proof.
  intros Hv. unfold execute, bind.
  pose proof (obtainResponse_sameResponse req opts w) as H1.
  destruct (obtainResponse pf this req opts w) as [[resp|e] w1]; simpl in *;
    [|unfold sameWritten; by rewrite H1].
  pose proof (conditionalGet_sameWritten req opts resp w1) as H2.
  destruct (conditionalGet pf req opts resp w1) as [[[]|e] w2]; simpl in *;
    try (unfold sameWritten in *; rewrite H2; by rewrite H1).
  pose proof (renderResponse_HEAD_sameWritten req resp w2 Hv) as H3.
  destruct (renderResponse pf this req resp w2) as [[[]|e] w3]; simpl in *;
    unfold sameWritten in *; rewrite H3, H2; by rewrite H1.
Qed.

Lemma conditionalGet_no_result req opts resp w :
  truthy (getOpt (resp_body resp) "result") = false ->
  conditionalGet pf req opts resp w = (Returned false, w).
Proof. intros H. unfold conditionalGet. by rewrite H. Qed.

Lemma stripSentinel_no_error body :
  truthy (getOpt body "error") = false -> stripSentinel body = body.
Proof.
  intros H. unfold stripSentinel.
  by destruct (getOpt body "error") as [| |[]|n|s|d|b|l|kvs].
Qed.

(** The tail of [execute] once the response is obtained and not answered
    with 304. *)
Lemma execute_rendered req opts resp w0 w w1 :
  obtainResponse pf this req opts w0 = (Returned resp, w) ->
  conditionalGet pf req opts resp w = (Returned false, w1) ->
  execute pf this req opts w0
  = match renderResponse pf this req resp w1 with
    | (Returned _, w2) => (Returned tt, withEnded w2)
    | (Thrown e, w2) => (Thrown e, w2)
    end.
Proof.
  intros H0 H1. unfold execute, bind. rewrite H0, H1.
  by destruct (renderResponse pf this req resp w1) as [[[]|e] w2].
Qed.

Lemma negotiated_result_not_null resp :
  branchOf resp = Negotiated -> isNull (getOpt (resp_body resp) "result") = false.
Proof.
  unfold branchOf.
  destruct (isUndefined _ || isNull _); [done|].
  by destruct (isNull (getOpt (resp_body resp) "result")).
Qed.

Lemma xCount_HEAD_result body :
  isUndefined (getOpt body "result") = false ->
  isNull (getOpt body "result") = false ->
  xCountHeaders "HEAD" body = [("X-Count", VNum 1)].
Proof. intros H1 H2. unfold xCountHeaders. by rewrite H1, H2. Qed.

Lemma xCount_count verb body :
  isUndefined (getOpt body "result") = true ->
  isUndefined (getOpt body "count") = false ->
  xCountHeaders verb body = [("X-Count", getOpt body "count")].
Proof. intros H1 H2. unfold xCountHeaders. by rewrite H1, H2. Qed.

(** A response that is rendered as 201 came from the Simple Interface, so the
    request was constructed and its URL resolved. *)
Lemma created_url_resolves req opts resp w0 w :
  obtainResponse pf this req opts w0 = (Returned resp, w) ->
  branchOf resp = Created ->
  exists u, parseUrl pf this req = Returned u.
Proof.
  intros H0 Hb.
  destruct (parseUrl pf this req) as [u|e] eqn:Hu; [by exists u|].
  unfold obtainResponse, interfaceRequestFromHttpRequest, bind, tryCatch,
    liftOutcome, ret in H0.
  rewrite Hu in H0. injection H0 as <- _.
  unfold branchOf in Hb. simpl in Hb. rewrite andb_false_r in Hb. discriminate Hb.
Qed.

(** C4 (amended). For a response that is not answered with 304 the status is
    the one the order 204 / 404 / 201 / error code or 500 / 200 selects,
    whatever the Simple Interface returned.  204 and 404 add no header and no
    body; 201 adds the [Location] header made by appending the id to the
    request URL, which resolves; the negotiated branch adds [Content-Type],
    [X-Count] and the headers the error supplies, and writes the body the
    codec serializes unless the verb is HEAD, in which case it writes nothing.
    [execute] then ends the response and returns; only a codec that throws
    makes it throw, with the status and headers set and nothing written. *)
Theorem execute_status_selection req opts resp w0 w w1 :
  obtainResponse pf this req opts w0 = (Returned resp, w) ->
  conditionalGet pf req opts resp w = (Returned false, w1) ->
  let run := execute pf this req opts w0 in
  let fm := headerToSerializationFormat (encoder (options this)) req "accept" in
  statusCode (res run.2) = statusPerSpec resp
  /\ match branchOf resp with
     | NoContent | NotFound =>
         run.1 = Returned tt
         /\ ended (res run.2) = true
         /\ setHeaders (res run.2) = setHeaders (res w1)
         /\ written (res run.2) = written (res w1)
     | Created =>
         exists u,
           parseUrl pf this req = Returned u
           /\ run.1 = Returned tt
           /\ ended (res run.2) = true
           /\ setHeaders (res run.2)
              = setHeaders (res w1)
                ++ [("Location",
                     VStr (href (appendToPathname pf u (getOpt (resp_body resp) "id"))))]
           /\ written (res run.2) = written (res w1)
     | Negotiated =>
         setHeaders (res run.2)
         = setHeaders (res w1)
           ++ [("Content-Type", VStr fm.2)]
           ++ xCountHeaders (http_method req) (resp_body resp)
           ++ errorHeaders (resp_body resp)
         /\ (truthy (getOpt (resp_body resp) "error") = false ->
             stripSentinel (resp_body resp) = resp_body resp)
         /\ if String.eqb (http_method req) "HEAD"
            then run.1 = Returned tt
                 /\ ended (res run.2) = true
                 /\ written (res run.2) = written (res w1)
            else match serializeObject (encoder (options this))
                         (stripSentinel (resp_body resp)) fm.1 with
                 | Returned chunk =>
                     run.1 = Returned tt
                     /\ ended (res run.2) = true
                     /\ written (res run.2) = written (res w1) ++ [chunk]
                 | Thrown e =>
                     run.1 = Thrown e
                     /\ written (res run.2) = written (res w1)
                 end
     end.
Proof.
  intros H0 H1 run fm. unfold run.
  rewrite (execute_rendered _ _ _ _ _ _ H0 H1), renderResponse_run.
  unfold statusPerSpec.
  destruct (branchOf resp) eqn:Hb.
  - by simpl.
  - by simpl.
  - destruct (created_url_resolves _ _ _ _ _ H0 Hb) as [u Hu].
    rewrite Hu. split; [done|]. by exists u.
  - cbv zeta. fold (statusPerSpec resp). fold fm.
    destruct (String.eqb (http_method req) "HEAD").
    + simpl. rewrite <- !app_assoc.
      repeat split; try done. apply stripSentinel_no_error.
    + destruct (serializeObject _ _ _) as [chunk|e]; simpl;
        rewrite <- !app_assoc, ?app_nil_r;
        (repeat split; try done); apply stripSentinel_no_error.
Qed.

(** C7 (amended). On a HEAD request [execute] writes no body, whatever
    happens.  When the response is not answered with 304 and is rendered by
    the negotiated branch, [execute] completes and sets, after
    [Content-Type], [X-Count] to 1 when the body carries a result, and to the
    count when it carries no result but a count. *)
Theorem head_response_has_no_body req opts w0 :
  http_method req = "HEAD" ->
  written (res (execute pf this req opts w0).2) = written (res w0)
  /\ forall resp w w1,
       obtainResponse pf this req opts w0 = (Returned resp, w) ->
       conditionalGet pf req opts resp w = (Returned false, w1) ->
       branchOf resp = Negotiated ->
       exists w2 xc,
         execute pf this req opts w0 = (Returned tt, w2)
         /\ setHeaders (res w2)
            = setHeaders (res w1)
              ++ [("Content-Type",
                   VStr (headerToSerializationFormat (encoder (options this))
                           req "accept").2)]
              ++ xc ++ errorHeaders (resp_body resp)
         /\ (isUndefined (getOpt (resp_body resp) "result") = false ->
             xc = [("X-Count", VNum 1)])
         /\ (isUndefined (getOpt (resp_body resp) "result") = true ->
             isUndefined (getOpt (resp_body resp) "count") = false ->
             xc = [("X-Count", getOpt (resp_body resp) "count")]).
Proof.
  intros Hv. split; [by apply execute_HEAD_sameWritten|].
  intros resp w w1 H0 H1 Hb.
  rewrite (execute_rendered _ _ _ _ _ _ H0 H1), renderResponse_run, Hb, Hv.
  cbv zeta. simpl String.eqb. cbv iota.
  eexists _, (xCountHeaders "HEAD" (resp_body resp)).
  split; [reflexivity|]. simpl. rewrite <- !app_assoc.
  split; [done|]. split.
  - intros Hr. apply xCount_HEAD_result; [done|].
    by apply negotiated_result_not_null.
  - by apply xCount_count.
Qed.

(** *** Method-Not-Allowed *)

(** The value of the [Allow] header for a list of allowed operations. *)
Lemma allow_header_value m ms :
  get (get (HTTPMethodNotAllowedError m (Some ms)) "headers") "Allow"
  = VStr (join " " (unique (OperationToHTTPMethod_get <$> ms)))
  /\ get (HTTPMethodNotAllowedError m (Some ms)) "httpCode" = VNum 405
  /\ carriesSentinel (HTTPMethodNotAllowedError m (Some ms)) = true.
Proof. repeat split. Qed.

Lemma interfaceRequest_not_allowed req opts o ms u buf w w' m :
  effectiveOptions this opts = Some o ->
  allowedMethods o = Some ms ->
  parseUrl pf this req = Returned u ->
  readBody req (Some o) w = (Returned buf, w') ->
  resolveMethod (http_method req)
    (negb (String.eqb (targetIdOf (replaceFirst (urlBase this) (href u))) ""))
  = Some m ->
  existsb (ModelInterfaceRequestMethods.eqb m) ms = false ->
  interfaceRequestFromHttpRequest pf this req opts w
  = (Thrown (HTTPMethodNotAllowedError m (Some ms)), w').
Proof.
  intros Ho Hms Hu Hb Hm Hn.
  unfold interfaceRequestFromHttpRequest, buildRequest, bind, liftOutcome.
  rewrite Ho, Hu, Hb, Hm. unfold notAllowed. by rewrite Hms, Hn.
Qed.

Lemma suppliedHeaders_not_allowed m ms :
  suppliedHeaders (HTTPMethodNotAllowedError m (Some ms))
  = [("Allow", VStr (join " " (unique (OperationToHTTPMethod_get <$> ms))))].
Proof.
  unfold suppliedHeaders. simpl.
  unfold js_or. simpl.
  destruct (String.eqb (join " " (unique (OperationToHTTPMethod_get <$> ms))) "")
    eqn:E; simpl; [|done].
  apply String.eqb_eq in E. by rewrite E.
Qed.

(** C5. With an [allowedMethods] list in force, and the URL resolved and the
    body buffered, a request whose resolved operation is not in the list makes
    request construction throw the Method-Not-Allowed error: its [httpCode] is
    405 and its [Allow] header is the verbs of the allowed operations, each
    once, joined by spaces.  [execute] then answers with status 405 and that
    [Allow] header. *)
Theorem disallowed_operation_is_405 req opts o ms u buf w w' m :
  effectiveOptions this opts = Some o ->
  allowedMethods o = Some ms ->
  parseUrl pf this req = Returned u ->
  readBody req (Some o) w = (Returned buf, w') ->
  resolveMethod (http_method req)
    (negb (String.eqb (targetIdOf (replaceFirst (urlBase this) (href u))) ""))
  = Some m ->
  existsb (ModelInterfaceRequestMethods.eqb m) ms = false ->
  let err := HTTPMethodNotAllowedError m (Some ms) in
  let verbs := unique (OperationToHTTPMethod_get <$> ms) in
  let final := (execute pf this req opts w).2 in
  interfaceRequestFromHttpRequest pf this req opts w = (Thrown err, w')
  /\ get err "httpCode" = VNum 405
  /\ get (get err "headers") "Allow" = VStr (join " " verbs)
  /\ NoDup verbs
  /\ (forall v, v ∈ verbs <-> exists op, op ∈ ms /\ OperationToHTTPMethod_get op = v)
  /\ statusCode (res final) = VNum 405
  /\ lastHeader "Allow" (setHeaders (res final)) = Some (VStr (join " " verbs))
  /\ setHeaders (res final)
     = setHeaders (res w)
       ++ [("Content-Type",
            VStr (headerToSerializationFormat (encoder (options this))
                    req "accept").2);
           ("Allow", VStr (join " " verbs))].
Proof.
  intros Ho Hms Hu Hb Hm Hn err verbs final.
  pose proof (interfaceRequest_not_allowed _ _ _ _ _ _ _ _ _ Ho Hms Hu Hb Hm Hn)
    as Hthrow.
  split; [exact Hthrow|].
  split; [reflexivity|]. split; [reflexivity|].
  split; [apply unique_spec|].
  split.
  { intros v. unfold verbs. rewrite (proj2 (unique_spec _)).
    rewrite list_elem_of_fmap. naive_solver. }
  set (resp := {| resp_method := HTTPMethodToOperation_get (http_method req);
                  resp_body := VObj [("error", err)] |}).
  assert (obtainResponse pf this req opts w = (Returned resp, w')) as H0.
  { unfold obtainResponse, bind, tryCatch. rewrite Hthrow.
    unfold ret, wrapError. by rewrite (proj2 (proj2 (allow_header_value m ms))). }
  assert (conditionalGet pf req opts resp w' = (Returned false, w')) as H1.
  { by apply conditionalGet_no_result. }
  assert (branchOf resp = Negotiated) as Hbr.
  { unfold branchOf. simpl. by rewrite andb_false_r. }
  assert (res w' = res w) as Hres.
  { pose proof (readBody_sameResponse req (Some o) w) as Hs.
    by rewrite Hb in Hs. }
  assert (setHeaders (res final)
          = setHeaders (res w)
            ++ [("Content-Type",
                 VStr (headerToSerializationFormat (encoder (options this))
                         req "accept").2);
                ("Allow", VStr (join " " verbs))]
          /\ statusCode (res final) = VNum 405) as [Hh Hc].
  { unfold final.
    rewrite (execute_rendered _ _ _ _ _ _ H0 H1), renderResponse_run, Hbr.
    cbv zeta. unfold statusPerSpec. rewrite Hbr.
    change (errorHeaders (resp_body resp)) with (suppliedHeaders err).
    unfold err. rewrite suppliedHeaders_not_allowed.
    change (xCountHeaders (http_method req) (resp_body resp)) with (@nil (string * value)).
    rewrite <- Hres.
    destruct (String.eqb (http_method req) "HEAD");
      [| destruct (serializeObject _ _ _) ];
      simpl; by rewrite <- !app_assoc. }
  split; [exact Hc|]. split; [|exact Hh].
  rewrite Hh.
  change [("Content-Type", ?c); ("Allow", ?a)]
    with ([("Content-Type", c)] ++ [("Allow", a)]).
  rewrite app_assoc. apply lastHeader_app_last.
Qed.

(** *** The path-derived identifier *)




Lemma objectSpread_over a k x :
  objectSpread a (VObj [(k, x)])
  = VObj (Fields.assign k x
            (fold_left (fun acc kv => Fields.assign kv.1 kv.2 acc) (ownEntries a) [])).
Proof. unfold objectSpread. simpl. by rewrite fold_left_app. Qed.

Lemma pathDerived_nonempty m tid :
  tid <> "" ->
  pathDerived m tid
  = if ModelInterfaceRequestMethods.eqb m ModelInterfaceRequestMethods.count
    then (ModelInterfaceRequestMethods.findOne,
          VObj [("query",
                 VObj [("query", VObj [("_id", VStr tid)]);
                       ("project", VObj [("_id", VNum 1); ("updatedAt", VNum 1)])])])
    else (m, VObj [("query", VObj [("query", VObj [("_id", VStr tid)])])]).
Proof.
  intros Hne. unfold pathDerived.
  destruct (String.eqb tid "") eqn:E.
  { apply String.eqb_eq in E. contradiction. }
  reflexivity.
Qed.




(** *** The body buffer *)

Lemma lookup_absent k kvs : k ∉ kvs.*1 -> Fields.lookup k kvs = VUndefined.
Proof.
  induction kvs as [|[k0 v0] rest IH]; simpl; [done|].
  intros Hn. apply not_elem_of_cons in Hn as [Hne Hn].
  destruct (String.eqb k0 k) eqn:E; [|by apply IH].
  apply String.eqb_eq in E. congruence.
Qed.

Lemma lookup_fold_assign kvs : forall acc k,
  NoDup kvs.*1 ->
  Fields.lookup k (fold_left (fun acc kv => Fields.assign kv.1 kv.2 acc) kvs acc)
  = if decide (k ∈ kvs.*1) then Fields.lookup k kvs else Fields.lookup k acc.
Proof.
  induction kvs as [|[k0 v0] rest IH]; intros acc k Hnd; simpl; [done|].
  apply NoDup_cons in Hnd as [Hk0 Hnd].
  rewrite (IH _ _ Hnd).
  destruct (String.eqb k0 k) eqn:E.
  - apply String.eqb_eq in E. subst k0.
    rewrite decide_False by done. rewrite decide_True by set_solver.
    apply lookup_assign_eq.
  - assert (k0 <> k) as Hne.
    { intros ->. by rewrite String.eqb_refl in E. }
    destruct (decide (k ∈ rest.*1)) as [Hin|Hin].
    + by rewrite decide_True by set_solver.
    + rewrite decide_False by set_solver. by apply lookup_assign_ne.
Qed.

Lemma lookup_spread kvs k :
  NoDup kvs.*1 ->
  Fields.lookup k (fold_left (fun acc kv => Fields.assign kv.1 kv.2 acc) kvs [])
  = Fields.lookup k kvs.
Proof.
  intros Hnd. rewrite lookup_fold_assign by done.
  destruct (decide (k ∈ kvs.*1)); [done|]. by rewrite (lookup_absent k kvs).
Qed.

(** What the shallow merge of lines 255-259 leaves of the deserialized
    object: every field but [query], and [query] too when the path gives
    none. *)
Lemma merged_fields kvs m tid :
  NoDup kvs.*1 ->
  (forall k, k <> "query" ->
     get (objectSpread (VObj kvs) (pathDerived m tid).2) k = Fields.lookup k kvs)
  /\ get (objectSpread (VObj kvs) (pathDerived m tid).2) "query"
     = if String.eqb tid "" then Fields.lookup "query" kvs
       else get (pathDerived m tid).2 "query".
Proof.
  intros Hnd. destruct (String.eqb tid "") eqn:E.
  - unfold pathDerived. rewrite E. cbn [negb snd].
    unfold objectSpread. cbn [ownEntries]. rewrite app_nil_r. cbn [get].
    split; [intros k _|]; by apply lookup_spread.
  - assert (tid <> "") as Hne.
    { intros Heq. rewrite Heq in E. discriminate E. }
    rewrite (pathDerived_nonempty m tid Hne).
    destruct (ModelInterfaceRequestMethods.eqb m ModelInterfaceRequestMethods.count);
      cbn [snd]; rewrite objectSpread_over; cbn [get ownEntries];
      (split; [intros k Hk; rewrite lookup_assign_ne by done; by apply lookup_spread
              | apply lookup_assign_eq]).
Qed.


Lemma readBody_attached req opts b w :
  http_body req = VBuf b ->
  readBody req opts w
  = (Returned (if (length b =? 0)%nat then None else Some b), w).
Proof. intros H. unfold readBody. by rewrite H. Qed.

Lemma mergeBody_events req buf body w e :
  e ∈ io (mergeBody this req buf body w).2 ->
  e ∈ io w \/ exists b fmt, buf = Some b /\ e = Deserialize b fmt.
Proof.
  unfold mergeBody. destruct buf as [b|]; [|by left].
  unfold bind, logEvent, liftOutcome, ret.
  destruct (deserializeObject _ _ _); simpl;
    rewrite elem_of_app, list_elem_of_singleton; naive_solver.
Qed.

Lemma buildRequest_events req opts u buf w e :
  e ∈ io (buildRequest pf this req opts u buf w).2 ->
  e ∈ io w \/ exists b fmt, buf = Some b /\ e = Deserialize b fmt.
Proof.
  unfold buildRequest.
  destruct (resolveMethod _ _); [|by left].
  destruct (notAllowed _ _); [by left|].
  unfold bind.
  pose proof (mergeBody_events req buf (pathDerived m
    (targetIdOf (replaceFirst (urlBase this) (href u)))).2 w e) as H.
  by destruct (mergeBody _ _ _ _ w) as [[body|err] w1].
Qed.

Lemma buildRequest_noNewRead req opts u buf w :
  noNewRead w (buildRequest pf this req opts u buf w).2.
Proof.
  unfold buildRequest.
  destruct (resolveMethod _ _); [|done].
  destruct (notAllowed _ _); [done|].
  unfold bind, mergeBody. destruct buf as [b|]; [|done].
  unfold bind, logEvent, liftOutcome, ret, noNewRead.
  destruct (deserializeObject _ _ _); simpl;
    by rewrite filter_app, filter_cons_False, filter_nil, app_nil_r.
Qed.

(** Without a body buffer the request depends neither on [req.body] nor on
    the world, and nothing is logged. *)
Lemma buildRequest_without_buffer req opts u w :
  buildRequest pf this req opts u None w
  = ((buildRequest pf this (withoutBody req) opts u None world0).1, w).
Proof.
  unfold buildRequest. cbn [withoutBody http_method].
  destruct (resolveMethod _ _); [|done].
  by destruct (notAllowed _ _).
Qed.

Lemma readBody_zero_length req opts w :
  zeroLengthBody req opts ->
  exists w1, readBody req opts w = (Returned None, w1) /\ noNewDeserialize w w1.
Proof.
  intros [Hb | (Hnb & Hskip & Hs)].
  - exists w. by rewrite (readBody_attached _ _ [] _ Hb).
  - unfold readBody, getRawBody, bind, logEvent, liftOutcome, ret.
    rewrite Hskip, Hs.
    destruct (http_body req) as [| | | | | |b| |] eqn:E;
      try (eexists; split; [reflexivity|];
           unfold noNewDeserialize; simpl;
           by rewrite filter_app, filter_cons_False, filter_nil, app_nil_r).
    by destruct (Hnb b).
Qed.

Lemma readBody_skipping req opts w :
  readBody (withoutBody req) (skipping opts) w = (Returned None, w).
Proof. reflexivity. Qed.

Lemma notAllowed_skipping opts m :
  notAllowed (skipping opts) m = notAllowed opts m.
Proof. by destruct opts as [o|]. Qed.

Lemma buildRequest_skipping req opts u buf w :
  buildRequest pf this req (skipping opts) u buf w
  = buildRequest pf this req opts u buf w.
Proof.
  unfold buildRequest.
  destruct (resolveMethod _ _); [|done].
  rewrite notAllowed_skipping.
  destruct (notAllowed opts m); [|done].
  by destruct opts as [o|].
Qed.

(** An attached, non-empty buffer goes to the codec as it is, and what the
    codec makes of it is merged under the path-derived fields. *)
Lemma interfaceRequest_attached req opts b u m w :
  http_body req = VBuf b ->
  b <> [] ->
  parseUrl pf this req = Returned u ->
  resolveMethod (http_method req)
    (negb (String.eqb (targetIdOf (replaceFirst (urlBase this) (href u))) ""))
  = Some m ->
  notAllowed (effectiveOptions this opts) m = false ->
  let fmt := (headerToSerializationFormat (encoder (options this))
                req "content-type").1 in
  let derived := pathDerived m (targetIdOf (replaceFirst (urlBase this) (href u))) in
  interfaceRequestFromHttpRequest pf this req opts w
  = (match deserializeObject (encoder (options this)) b fmt with
     | Returned parsed =>
         Returned
           {| req_method := derived.1;
              req_body :=
                overrideWithQueryString pf
                  (qs_parse pf (search u) (queryStringOptions (options this)))
                  (objectSpread parsed derived.2) |}
     | Thrown e => Thrown e
     end,
     {| res := res w; io := io w ++ [Deserialize b fmt] |}).
Proof.
  intros Hb Hne Hu Hm Ha fmt derived.
  unfold interfaceRequestFromHttpRequest, bind, liftOutcome.
  rewrite Hu, (readBody_attached req _ b w Hb).
  destruct b as [|x b']; [done|]. cbn [length Nat.eqb].
  unfold buildRequest. rewrite Hm, Ha.
  unfold mergeBody, bind, logEvent, liftOutcome, ret.
  fold fmt. fold derived.
  by destruct (deserializeObject (encoder (options this)) (x :: b') fmt).
Qed.

(** C10. A buffer attached as [req.body] is the message body, whatever
    [skipParseBody] says: the request stream is not read and only that buffer
    is ever deserialized; when it is not empty and the request gets as far as
    its body, that buffer is what the codec is given, once, and what the codec
    makes of it is merged into the operation request under the path-derived
    fields (so, without a query string, every field of it but [query] is in
    the request), while a codec error is thrown on.  A zero-length buffer,
    attached or read from the stream, gives the outcome of the same request
    with no body at all, and nothing is deserialized. *)
Theorem body_buffer_handling req opts w :
  (forall b,
      http_body req = VBuf b ->
      let run := interfaceRequestFromHttpRequest pf this req opts w in
      readBody req (effectiveOptions this opts) w
      = (Returned (if (length b =? 0)%nat then None else Some b), w)
      /\ noNewRead w run.2
      /\ (forall e, e ∈ io run.2 -> e ∈ io w \/ exists fmt, e = Deserialize b fmt)
      /\ (b <> [] ->
          forall u m,
            parseUrl pf this req = Returned u ->
            resolveMethod (http_method req)
              (negb (String.eqb (targetIdOf (replaceFirst (urlBase this) (href u))) ""))
            = Some m ->
            notAllowed (effectiveOptions this opts) m = false ->
            let fmt := (headerToSerializationFormat (encoder (options this))
                          req "content-type").1 in
            let derived :=
              pathDerived m (targetIdOf (replaceFirst (urlBase this) (href u))) in
            let q := qs_parse pf (search u) (queryStringOptions (options this)) in
            io run.2 = io w ++ [Deserialize b fmt]
            /\ run.1
               = match deserializeObject (encoder (options this)) b fmt with
                 | Returned parsed =>
                     Returned
                       {| req_method := derived.1;
                          req_body :=
                            overrideWithQueryString pf q (objectSpread parsed derived.2) |}
                 | Thrown e => Thrown e
                 end
            /\ forall kvs,
                 deserializeObject (encoder (options this)) b fmt
                 = Returned (VObj kvs) ->
                 NoDup kvs.*1 ->
                 q = [] ->
                 exists r,
                   run.1 = Returned r
                   /\ forall k, k <> "query" ->
                        get (req_body r) k = Fields.lookup k kvs))
  /\ (zeroLengthBody req (effectiveOptions this opts) ->
      (interfaceRequestFromHttpRequest pf this req opts w).1
      = (interfaceRequestFromHttpRequest pf this (withoutBody req)
           (skipping (effectiveOptions this opts)) w).1
      /\ noNewDeserialize w (interfaceRequestFromHttpRequest pf this req opts w).2).
Proof.
  split.
  - intros b Hb run.
    pose proof (readBody_attached req (effectiveOptions this opts) b w Hb) as Hr.
    split; [exact Hr|].
    assert (noNewRead w run.2
            /\ forall e, e ∈ io run.2 ->
                 e ∈ io w \/ exists fmt, e = Deserialize b fmt) as [Hn He].
    { unfold run, interfaceRequestFromHttpRequest, bind, liftOutcome.
      destruct (parseUrl pf this req) as [u|e]; [|by split; [|left]].
      rewrite Hr. split; [apply buildRequest_noNewRead|].
      intros e He. apply buildRequest_events in He as [He | (b' & fmt & Hb' & ->)];
        [by left|].
      right. exists fmt. destruct (length b =? 0)%nat; congruence. }
    split; [exact Hn|]. split; [exact He|].
    intros Hne u m Hu Hm Ha fmt derived q.
    unfold run.
    rewrite (interfaceRequest_attached req opts b u m w Hb Hne Hu Hm Ha).
    fold fmt. fold derived. fold q. cbn [fst snd io].
    split; [reflexivity|]. split; [reflexivity|].
    intros kvs Hd Hnd Hq. rewrite Hd, Hq.
    eexists. split; [reflexivity|].
    intros k Hk. cbn [req_body overrideWithQueryString fold_left].
    by apply (merged_fields kvs m _ Hnd).
  - intros Hz.
    destruct (readBody_zero_length req _ w Hz) as (w1 & Hr & Hd).
    unfold interfaceRequestFromHttpRequest, bind, liftOutcome.
    change (parseUrl pf this (withoutBody req)) with (parseUrl pf this req).
    destruct (parseUrl pf this req) as [u|e]; [|done].
    rewrite Hr.
    change (effectiveOptions this (skipping (effectiveOptions this opts)))
      with (skipping (effectiveOptions this opts)).
    rewrite readBody_skipping, buildRequest_skipping.
    rewrite (buildRequest_without_buffer req _ u w1).
    rewrite (buildRequest_without_buffer (withoutBody req) _ u w).
    split; [reflexivity | exact Hd].
Qed.
End RESTProperties.

(** ** The verb table *)

Lemma resolveMethod_never_null verb hasPathname :
  RESTInterfaceHandler.resolveMethod verb hasPathname <> None.
Proof.
  unfold RESTInterfaceHandler.resolveMethod, RESTInterfaceHandler.whenVerb,
    RESTInterfaceHandler.orElse.
  repeat case_match; congruence.
Qed.

Lemma resolveMethod_table hasPathname :
  let resolve verb := RESTInterfaceHandler.resolveMethod verb hasPathname in
  resolve "POST" = Some ModelInterfaceRequestMethods.create
  /\ resolve "PUT" = Some ModelInterfaceRequestMethods.update
  /\ resolve "PATCH" = Some ModelInterfaceRequestMethods.patch
  /\ resolve "DELETE" = Some ModelInterfaceRequestMethods.delete
  /\ resolve "HEAD" = Some ModelInterfaceRequestMethods.count
  /\ resolve "GET"
     = Some (if hasPathname then ModelInterfaceRequestMethods.findOne
             else ModelInterfaceRequestMethods.find).
Proof. repeat split. Qed.

(** ** Concrete exchanges *)

Section Exchanges.
Import ModelInterfaceRequestMethods RESTInterfaceHandler Demo.

(** C3. The verb OPTIONS is none of POST, PUT, PATCH, DELETE, HEAD, GET, yet
    request construction does not fail with [InvalidHTTPMethodError]: it
    returns a [find] request (a [findOne] request when there is a path
    remainder), and no verb at all resolves to [null]. *)
Theorem unmapped_verb_is_not_rejected :
  interfaceRequestFromHttpRequest platform handler (request "OPTIONS" "/" []) None world0
  = (Returned {| req_method := find; req_body := VObj [] |},
     {| res := freshResponse; io := [ReadStream] |})
  /\ (interfaceRequestFromHttpRequest platform handler
        (request "OPTIONS" "/abc" []) None world0).1
     = Returned {| req_method := findOne;
                   req_body :=
                     VObj [("query", VObj [("query", VObj [("_id", VStr "abc")])])] |}
  /\ forall verb hasPathname, resolveMethod verb hasPathname <> None.
Proof.
  split; [reflexivity|]. split; [reflexivity|]. apply resolveMethod_never_null.
Qed.

(** C2. The test of line 309 holds exactly when the requested timestamp is
    at most the stored one.  So: the document was last modified at 00:00:01
    and the client asks for changes since 00:00:02; the stored timestamp is
    not strictly newer, yet [execute] answers 200 with a [Last-Modified]
    header instead of 304.  Conversely a document modified at 00:00:02,
    strictly newer than the 00:00:01 asked for, is answered with 304. *)
Theorem if_modified_since_is_compared_backwards :
  (forall requested stored,
      notModified (Some (Some requested)) (Some stored) = true <-> requested <= stored)
  /\ dateTime platform (VNum 1000) = Some 1000
  /\ dateTime platform (VStr "Thu, 01 Jan 1970 00:00:02 GMT") = Some 2000
  /\ execute platform (handlerOn (store 1000) None)
       (request "HEAD" "/abc" (ifModifiedSince "Thu, 01 Jan 1970 00:00:02 GMT"))
       None world0
     = (Returned tt,
        {| res := {| statusCode := VNum 200;
                     setHeaders :=
                       [("Last-Modified", VStr "1970-01-01T00:00:01.000Z");
                        ("Content-Type", VStr "application/json");
                        ("X-Count", VNum 1)];
                     written := [];
                     ended := true |};
           io := [ReadStream] |})
  /\ execute platform (handlerOn (store 2000) None)
       (request "HEAD" "/abc" (ifModifiedSince "Thu, 01 Jan 1970 00:00:01 GMT"))
       None world0
     = (Returned tt,
        {| res := {| statusCode := VNum 304; setHeaders := []; written := [];
                     ended := true |};
           io := [ReadStream] |}).
Proof.
  split; [intros requested stored; apply Z.leb_le|]. repeat split.
Qed.

(** Counterexample to C4: a HEAD request for the count is rendered by the
    negotiated branch with status 200, but the serialized body is not
    written. *)
Lemma head_count_is_200_without_body :
  exists resp w1 chunk,
    obtainResponse platform handler (request "HEAD" "/" []) None world0
    = (Returned resp, w1)
    /\ conditionalGet platform (request "HEAD" "/" []) None resp w1
       = (Returned false, w1)
    /\ branchOf resp = Negotiated
    /\ truthy (getOpt (resp_body resp) "error") = false
    /\ serializeObject json (resp_body resp) "json" = Returned chunk
    /\ let final := (execute platform handler (request "HEAD" "/" []) None world0).2 in
       statusCode (res final) = VNum 200
       /\ written (res final) <> [chunk].
Proof.
  eexists _, _, _. repeat split; try reflexivity. simpl. discriminate.
Qed.


(** Counterexample to C7: a HEAD request answered with 304 carries a non-null
    result, and no [X-Count] header is set. *)
Lemma head_304_has_no_x_count :
  let req := request "HEAD" "/abc" (ifModifiedSince "Thu, 01 Jan 1970 00:00:01 GMT") in
  exists resp w1,
    obtainResponse platform handler req None world0 = (Returned resp, w1)
    /\ isUndefined (getOpt (resp_body resp) "result") = false
    /\ isNull (getOpt (resp_body resp) "result") = false
    /\ let final := (execute platform handler req None world0).2 in
       statusCode (res final) = VNum 304
       /\ lastHeader "X-Count" (setHeaders (res final)) = None
       /\ lastHeader "X-Count" (setHeaders (res final)) <> Some (VNum 1).
Proof.
  eexists _, _. repeat split; try reflexivity. simpl. discriminate.
Qed.

(** A HEAD request for a document that is not there: 404, and no [X-Count]. *)
Lemma head_missing_document_is_404 :
  execute platform (handlerOn emptyStore None) (request "HEAD" "/abc" []) None world0
  = (Returned tt,
     {| res := {| statusCode := VNum 404; setHeaders := []; written := [];
                  ended := true |};
        io := [ReadStream] |}).
Proof. reflexivity. Qed.
End Exchanges.

(** ** The properties at work on the concrete deployment *)

Section Witnesses.
Import ModelInterfaceRequestMethods RESTInterfaceHandler Demo.

Lemma execute_status_selection_witness :
  (let run := execute platform handler (request "PUT" "/abc" []) None world0 in
   run.1 = Returned tt
   /\ statusCode (res run.2) = VNum 204
   /\ setHeaders (res run.2) = []
   /\ written (res run.2) = [])
  /\ (let run := execute platform handler (request "GET" "/abc" []) None world0 in
      run.1 = Returned tt
      /\ statusCode (res run.2) = VNum 200
      /\ written (res run.2) = [responseBytes]).
Proof.
  split.
  - destruct (execute_status_selection platform handler (request "PUT" "/abc" []) None
                {| resp_method := Some update; resp_body := VUndefined |}
                world0 afterRead afterRead eq_refl eq_refl)
      as (Hs & Hr & _ & Hh & Hw).
    cbv zeta. split; [exact Hr|]. split; [exact Hs|]. split; [exact Hh | exact Hw].
  - destruct (execute_status_selection platform handler (request "GET" "/abc" []) None
                {| resp_method := Some findOne;
                   resp_body := VObj [("result", doc 1000)] |}
                world0 afterRead
                (withHeaders [("Last-Modified", VStr "1970-01-01T00:00:01.000Z")]
                   afterRead)
                eq_refl eq_refl)
      as (Hs & _ & _ & Hr & _ & Hw).
    cbv zeta. split; [exact Hr|]. split; [exact Hs | exact Hw].
Defined.

Lemma disallowed_operation_is_405_witness :
  let final :=
    (execute platform handler (request "DELETE" "/abc" [])
       (Some (only [find; findOne; create])) world0).2 in
  statusCode (res final) = VNum 405
  /\ lastHeader "Allow" (setHeaders (res final)) = Some (VStr "GET POST").
Proof.
  destruct (disallowed_operation_is_405 platform handler (request "DELETE" "/abc" [])
              (Some (only [find; findOne; create])) (only [find; findOne; create])
              [find; findOne; create]
              {| href := base +:+ "/abc"; pathname := "/abc"; search := "" |}
              None world0 afterRead delete
              eq_refl eq_refl eq_refl eq_refl eq_refl eq_refl)
    as (_ & _ & _ & _ & _ & Hc & Hl & _).
  split; [exact Hc | exact Hl].
Defined.


Lemma head_response_has_no_body_witness :
  let final := execute platform handler (request "HEAD" "/abc" []) None world0 in
  written (res final.2) = []
  /\ exists w2,
       final = (Returned tt, w2)
       /\ setHeaders (res w2)
          = [("Last-Modified", VStr "1970-01-01T00:00:01.000Z");
             ("Content-Type", VStr "application/json");
             ("X-Count", VNum 1)].
Proof.
  destruct (head_response_has_no_body platform handler (request "HEAD" "/abc" [])
              None world0 eq_refl) as (Hw & Hx).
  split; [exact Hw|].
  destruct (Hx {| resp_method := Some findOne;
                  resp_body := VObj [("result", doc 1000)] |}
               afterRead
               (withHeaders [("Last-Modified", VStr "1970-01-01T00:00:01.000Z")]
                  afterRead)
               eq_refl eq_refl eq_refl)
    as (w2 & xc & He & Hh & Hr & _).
  exists w2. split; [exact He|].
  rewrite Hh, (Hr eq_refl). reflexivity.
Defined.

Lemma constructor_registers_bound_methods_witness :
  exists methods',
    RPCInterface.construct simpleInterface (Some "Foo:") ∅ = (Returned tt, methods')
    /\ methods' !! "Foo:Bar:find"
       = Some {| RPCInterface.targetFunction := "find";
                 RPCInterface.boundThis := simpleInterface |}.
Proof.
  destruct (constructor_registers_bound_methods simpleInterface (Some "Foo:") ∅)
    as (_ & methods' & Hc & Hreg).
  { intros k Hk H1 H2. simpl in Hk.
    repeat (apply elem_of_cons in Hk as [->|Hk]);
      try contradiction; try (by eexists); by apply elem_of_nil in Hk. }
  exists methods'. split; [exact Hc|].
  destruct (Hreg "find") as (f & Hf & Hm);
    [simpl; set_solver | discriminate | discriminate |].
  injection Hf as <-. exact Hm.
Defined.

Lemma body_buffer_handling_witness :
  (let req := attached [Byte.x7b] (request "POST" "/" []) in
   let run :=
     interfaceRequestFromHttpRequest platform
       (Scenarios.handlerWith (Scenarios.jsonOf Scenarios.posted) (store 1000) None)
       req None world0 in
   io run.2 = [Deserialize [Byte.x7b] "json"]
   /\ exists r,
        run.1 = Returned r
        /\ req_method r = create
        /\ get (req_body r) "fields" = VObj [("name", VStr "a")])
  /\ (let req := attached [] (request "POST" "/" []) in
      noNewRead world0 (interfaceRequestFromHttpRequest platform handler req None world0).2
      /\ (interfaceRequestFromHttpRequest platform handler req None world0).1
         = Returned {| req_method := create; req_body := VObj [] |}).
Proof.
  split.
  - destruct (body_buffer_handling platform
                (Scenarios.handlerWith (Scenarios.jsonOf Scenarios.posted)
                   (store 1000) None)
                (attached [Byte.x7b] (request "POST" "/" [])) None world0)
      as (Ha & _).
    destruct (Ha [Byte.x7b] eq_refl) as (_ & _ & _ & Hm).
    destruct (Hm ltac:(discriminate)
                {| href := base +:+ "/"; pathname := "/"; search := "" |}
                create eq_refl eq_refl eq_refl)
      as (Hio & Hrun & Hf).
    cbv zeta. split; [exact Hio|].
    destruct (Hf _ eq_refl) as (r & Hr & Hk).
    { repeat constructor; set_solver. }
    { reflexivity. }
    exists r. split; [exact Hr|]. split.
    + rewrite Hrun in Hr. by injection Hr as <-.
    + by rewrite (Hk "fields").
  - destruct (body_buffer_handling platform handler
                (attached [] (request "POST" "/" [])) None world0) as (Ha & Hb).
    destruct (Ha [] eq_refl) as (_ & Hn & _).
    destruct (Hb (or_introl eq_refl)) as (He & _).
    cbv zeta. split; [exact Hn|]. rewrite He. reflexivity.
Defined.
End Witnesses.

(** * Further properties *)

(** ** The path remainder *)

Lemma append_cons (a : ascii) (s t : string) :
  String a s +:+ t = String a (s +:+ t).
Proof. reflexivity. Qed.

Lemma append_empty_l (s : string) : "" +:+ s = s.
Proof. reflexivity. Qed.

Lemma append_empty_r (s : string) : s +:+ "" = s.
Proof.
  induction s as [|a s IH]; [done|]. by rewrite append_cons, IH.
Qed.

Lemma prefix_append (p s : string) : String.prefix p (p +:+ s) = true.
Proof.
  induction p as [|a p IH].
  - rewrite append_empty_l. by destruct s.
  - rewrite append_cons. simpl.
    destruct (ascii_dec a a); [exact IH | contradiction].
Qed.

Lemma dropChars_append (p s : string) : dropChars (String.length p) (p +:+ s) = s.
Proof.
  induction p as [|a p IH]; [by destruct s|].
  rewrite append_cons. exact IH.
Qed.

Lemma replaceFirst_unfold (pat s : string) :
  replaceFirst pat s
  = if String.prefix pat s then dropChars (String.length pat) s
    else match s with
         | EmptyString => EmptyString
         | String c rest => String c (replaceFirst pat rest)
         end.
Proof. by destruct s. Qed.

Lemma replaceFirst_prefix (p s : string) : replaceFirst p (p +:+ s) = s.
Proof. by rewrite replaceFirst_unfold, prefix_append, dropChars_append. Qed.

Lemma upTo_append (c : ascii) (a s : string) :
  occurs c a = false -> upTo c (a +:+ s) = a +:+ upTo c s.
Proof.
  induction a as [|x a IH]; [done|].
  intros H. simpl in H. apply orb_false_iff in H as [Hx Ha].
  rewrite !append_cons. simpl. rewrite Hx. by rewrite IH.
Qed.

Lemma upTo_absent (c : ascii) (a : string) : occurs c a = false -> upTo c a = a.
Proof.
  intros H. rewrite <- (append_empty_r a) at 1.
  rewrite upTo_append by done. apply append_empty_r.
Qed.

Lemma occurs_upTo (c : ascii) (s : string) : occurs c (upTo c s) = false.
Proof.
  induction s as [|a s IH]; simpl; [done|].
  destruct (Ascii.eqb a c) eqn:E; simpl; [done|]. by rewrite E.
Qed.

Lemma occurs_upTo_other (c d : ascii) (s : string) :
  occurs d s = false -> occurs d (upTo c s) = false.
Proof.
  induction s as [|a s IH]; simpl; [done|].
  intros H. apply orb_false_iff in H as [Ha Hs].
  destruct (Ascii.eqb a c); simpl; [done|]. rewrite Ha. by apply IH.
Qed.

(** X1. A request URL made of the URL base, a slash, an identifier free of
    [?] and [#], and then nothing, a query string or a fragment, has that
    identifier as its path remainder. *)
Theorem identifier_round_trip (base id tail : string) :
  occurs "?"%char id = false ->
  occurs "#"%char id = false ->
  isTail tail = true ->
  RESTInterfaceHandler.targetIdOf (replaceFirst base (base +:+ "/" +:+ id +:+ tail))
  = id.
Proof.
  intros Hq Hh Ht. rewrite replaceFirst_prefix.
  unfold RESTInterfaceHandler.targetIdOf.
  rewrite append_cons, append_empty_l.
  change (dropChars 1 (String "/" (id +:+ tail))) with (id +:+ tail).
  rewrite upTo_append by done.
  destruct tail as [|a rest].
  - change (upTo "?"%char "") with "". rewrite append_empty_r.
    by apply upTo_absent.
  - simpl in Ht. simpl upTo.
    destruct (Ascii.eqb a "?"%char) eqn:E1.
    + rewrite append_empty_r. by apply upTo_absent.
    + simpl in Ht. rewrite upTo_append by done. simpl upTo. rewrite Ht.
      apply append_empty_r.
Qed.

(** X2. Whatever the URL, the path remainder contains neither [?] nor [#]. *)
Theorem identifier_has_no_query_or_fragment (pathname : string) :
  occurs "?"%char (RESTInterfaceHandler.targetIdOf pathname) = false
  /\ occurs "#"%char (RESTInterfaceHandler.targetIdOf pathname) = false.
Proof.
  unfold RESTInterfaceHandler.targetIdOf. split.
  - apply occurs_upTo_other, occurs_upTo.
  - apply occurs_upTo.
Qed.

(** ** Request construction *)

Section RequestConstruction.
Import ModelInterfaceRequestMethods RESTInterfaceHandler.
Variable pf : Platform.
Variable this : RESTInterfaceHandler.t.

Lemma readBody_skipped req opts w :
  flag opts skipParseBody = true ->
  (forall b, http_body req <> VBuf b) ->
  readBody req opts w = (Returned None, w).
Proof.
  intros Hs Hb. unfold readBody. rewrite Hs.
  destruct (http_body req) as [| | | | | |b| |]; try reflexivity.
  by destruct (Hb b).
Qed.

(** X3. With [skipParseBody] set and no buffer attached as [req.body], request
    construction touches nothing: the request stream is not read, nothing is
    deserialized and the response object is left as it is. *)
Theorem skipped_body_does_no_io req opts w :
  flag (effectiveOptions this opts) skipParseBody = true ->
  (forall b, http_body req <> VBuf b) ->
  (interfaceRequestFromHttpRequest pf this req opts w).2 = w.
Proof.
  intros Hs Hb. unfold interfaceRequestFromHttpRequest, bind, liftOutcome.
  destruct (parseUrl pf this req) as [u|e]; [|done].
  rewrite (readBody_skipped _ _ _ Hs Hb).
  by rewrite buildRequest_without_buffer.
Qed.

Lemma interfaceRequest_allowed req opts o ms u m w :
  effectiveOptions this opts = Some o ->
  allowedMethods o = Some ms ->
  parseUrl pf this req = Returned u ->
  resolveMethod (http_method req)
    (negb (String.eqb (targetIdOf (replaceFirst (urlBase this) (href u))) ""))
  = Some m ->
  existsb (ModelInterfaceRequestMethods.eqb m) ms = true ->
  interfaceRequestFromHttpRequest pf this req opts w
  = interfaceRequestFromHttpRequest pf this req (Some (withAllowedMethods None o)) w.
Proof.
  intros Ho Hms Hu Hm Hin.
  unfold interfaceRequestFromHttpRequest, bind, liftOutcome.
  rewrite Ho, Hu. cbn [effectiveOptions].
  change (readBody req (Some (withAllowedMethods None o)) w)
    with (readBody req (Some o) w).
  destruct (readBody req (Some o) w) as [[buf|e] w1]; [|done].
  unfold buildRequest. rewrite Hm.
  unfold notAllowed. rewrite Hms, Hin. reflexivity.
Qed.

(** X4. A policy that allows the resolved operation changes nothing: the
    request is constructed as it is without an [allowedMethods] list. *)
Theorem allowed_operation_ignores_policy req opts o ms u m w :
  effectiveOptions this opts = Some o ->
  allowedMethods o = Some ms ->
  parseUrl pf this req = Returned u ->
  resolveMethod (http_method req)
    (negb (String.eqb (targetIdOf (replaceFirst (urlBase this) (href u))) ""))
  = Some m ->
  existsb (ModelInterfaceRequestMethods.eqb m) ms = true ->
  interfaceRequestFromHttpRequest pf this req opts w
  = interfaceRequestFromHttpRequest pf this req (Some (withAllowedMethods None o)) w.
Proof. apply interfaceRequest_allowed. Qed.

(** X5. An empty [allowedMethods] list rejects every request whose URL
    resolves and whose body is buffered, whatever the verb, and the [Allow]
    header of the error is the empty string. *)
Theorem empty_policy_rejects_everything req opts o u buf w w' :
  effectiveOptions this opts = Some o ->
  allowedMethods o = Some [] ->
  parseUrl pf this req = Returned u ->
  readBody req (Some o) w = (Returned buf, w') ->
  exists m,
    interfaceRequestFromHttpRequest pf this req opts w
    = (Thrown (HTTPMethodNotAllowedError m (Some [])), w')
    /\ get (get (HTTPMethodNotAllowedError m (Some [])) "headers") "Allow" = VStr "".
Proof.
  intros Ho Hms Hu Hb.
  destruct (resolveMethod (http_method req)
              (negb (String.eqb (targetIdOf (replaceFirst (urlBase this) (href u))) "")))
    as [m|] eqn:Hm.
  - exists m. split; [|reflexivity].
    by apply (interfaceRequest_not_allowed pf this req opts o [] u buf w w' m).
  - by apply resolveMethod_never_null in Hm.
Qed.

(** X6. The policy is checked against the operation the verb resolves to, not
    against the one that is run.  For HEAD on a path remainder: when [count]
    is allowed the request is constructed as without a policy, and it is a
    [findOne] request even if [findOne] is not allowed; when [count] is not
    allowed the request is rejected even if [findOne] is allowed. *)
Theorem policy_precedes_head_rewrite req opts o ms u buf w w' :
  effectiveOptions this opts = Some o ->
  allowedMethods o = Some ms ->
  parseUrl pf this req = Returned u ->
  targetIdOf (replaceFirst (urlBase this) (href u)) <> "" ->
  http_method req = "HEAD" ->
  readBody req (Some o) w = (Returned buf, w') ->
  if existsb (ModelInterfaceRequestMethods.eqb count) ms
  then interfaceRequestFromHttpRequest pf this req opts w
       = interfaceRequestFromHttpRequest pf this req
           (Some (withAllowedMethods None o)) w
       /\ forall r w2,
            interfaceRequestFromHttpRequest pf this req opts w = (Returned r, w2) ->
            req_method r = findOne
  else interfaceRequestFromHttpRequest pf this req opts w
       = (Thrown (HTTPMethodNotAllowedError count (Some ms)), w').
Proof.
  intros Ho Hms Hu Hne Hv Hb.
  assert (resolveMethod (http_method req)
            (negb (String.eqb (targetIdOf (replaceFirst (urlBase this) (href u))) ""))
          = Some count) as Hm by (by rewrite Hv).
  destruct (existsb (ModelInterfaceRequestMethods.eqb count) ms) eqn:Hin.
  - split.
    + by apply (interfaceRequest_allowed req opts o ms u count w).
    + intros r w2 Hrun.
      unfold interfaceRequestFromHttpRequest, buildRequest, bind, liftOutcome in Hrun.
      rewrite Ho, Hu, Hb, Hm in Hrun.
      unfold notAllowed in Hrun. rewrite Hms, Hin in Hrun. cbn [negb] in Hrun.
      rewrite (pathDerived_nonempty count _ Hne) in Hrun. cbn [eqb fst snd] in Hrun.
      destruct (mergeBody this req buf _ w') as [[body|e] w3]; [|done].
      by injection Hrun as <- _.
  - by apply (interfaceRequest_not_allowed pf this req opts o ms u buf w w' count).
Qed.

(** X7. With a body and no query string, the deserialized object is merged
    under what the path gives: every top-level field of the body other than
    [query] reaches the operation request unchanged, and [query] does too
    when there is no path remainder; with a path remainder the body's own
    [query] is dropped whole in favour of the path-derived one. *)
Theorem body_fields_survive req opts w u b w1 kvs m r w' :
  parseUrl pf this req = Returned u ->
  qs_parse pf (search u) (queryStringOptions (options this)) = [] ->
  readBody req (effectiveOptions this opts) w = (Returned (Some b), w1) ->
  deserializeObject (encoder (options this)) b
    (headerToSerializationFormat (encoder (options this)) req "content-type").1
  = Returned (VObj kvs) ->
  NoDup kvs.*1 ->
  resolveMethod (http_method req)
    (negb (String.eqb (targetIdOf (replaceFirst (urlBase this) (href u))) ""))
  = Some m ->
  interfaceRequestFromHttpRequest pf this req opts w = (Returned r, w') ->
  (forall k, k <> "query" -> get (req_body r) k = Fields.lookup k kvs)
  /\ get (req_body r) "query"
     = if String.eqb (targetIdOf (replaceFirst (urlBase this) (href u))) ""
       then Fields.lookup "query" kvs
       else get (pathDerived m (targetIdOf (replaceFirst (urlBase this) (href u)))).2
              "query".
Proof.
  intros Hu Hq Hb Hd Hnd Hm Hrun.
  set (tid := targetIdOf (replaceFirst (urlBase this) (href u))) in *.
  unfold interfaceRequestFromHttpRequest, buildRequest, bind, liftOutcome in Hrun.
  rewrite Hu, Hb in Hrun. fold tid in Hrun. rewrite Hm, Hq in Hrun.
  destruct (notAllowed _ m); [done|].
  unfold mergeBody, bind, logEvent, liftOutcome, ret in Hrun.
  rewrite Hd in Hrun. injection Hrun as <- _. cbn [req_body].
  unfold overrideWithQueryString. cbn [fold_left].
  destruct (String.eqb tid "") eqn:E.
  - unfold pathDerived. rewrite E. cbn [negb snd].
    unfold objectSpread. cbn [ownEntries]. rewrite app_nil_r. cbn [get].
    split; [intros k _|]; by apply lookup_spread.
  - assert (tid <> "") as Hne.
    { intros Heq. rewrite Heq in E. discriminate E. }
    rewrite (pathDerived_nonempty m tid Hne).
    destruct (ModelInterfaceRequestMethods.eqb m count); cbn [snd];
      rewrite objectSpread_over; cbn [get ownEntries];
      (split; [intros k Hk; rewrite lookup_assign_ne by done; by apply lookup_spread
              | apply lookup_assign_eq]).
Qed.
End RequestConstruction.

(** ** The verb tables *)

(** X8. The two verb tables agree.  The operation [execute] infers from a
    verb when request construction failed has that verb in
    [OperationToHTTPMethod]; every operation has a verb there, and inferring
    from it gives an operation with the same verb; and for a verb the reverse
    table knows, the operation request construction resolves has that verb
    too. *)
Theorem verb_tables_agree :
  (forall verb op,
      RESTInterfaceHandler.HTTPMethodToOperation_get verb = Some op ->
      RESTInterfaceHandler.OperationToHTTPMethod_get op = Some verb)
  /\ (forall op,
        exists verb op',
          RESTInterfaceHandler.OperationToHTTPMethod_get op = Some verb
          /\ RESTInterfaceHandler.HTTPMethodToOperation_get verb = Some op'
          /\ RESTInterfaceHandler.OperationToHTTPMethod_get op' = Some verb)
  /\ (forall verb hasPathname op,
        RESTInterfaceHandler.HTTPMethodToOperation_get verb <> None ->
        RESTInterfaceHandler.resolveMethod verb hasPathname = Some op ->
        RESTInterfaceHandler.OperationToHTTPMethod_get op = Some verb).
Proof.
  assert (forall verb,
            RESTInterfaceHandler.HTTPMethodToOperation_get verb <> None ->
            verb ∈ ["POST"; "PUT"; "DELETE"; "GET"; "HEAD"; "PATCH"]) as Hknown.
  { intros verb H.
    unfold RESTInterfaceHandler.HTTPMethodToOperation_get in H.
    cbn -[String.eqb] in H.
    repeat match type of H with
           | context [String.eqb ?a verb] =>
               let E := fresh "E" in
               destruct (String.eqb a verb) eqn:E;
               [apply String.eqb_eq in E; subst verb; set_solver|]
           end.
    done. }
  split; [|split].
  - intros verb op H.
    assert (verb ∈ ["POST"; "PUT"; "DELETE"; "GET"; "HEAD"; "PATCH"]) as Hin.
    { apply Hknown. by rewrite H. }
    repeat (apply elem_of_cons in Hin as [->|Hin]);
      try (injection H as <-; reflexivity).
    by apply elem_of_nil in Hin.
  - intros []; eexists _, _; repeat split.
  - intros verb hasPathname op Hk Hr.
    apply Hknown in Hk.
    repeat (apply elem_of_cons in Hk as [->|Hk]);
      try (destruct hasPathname; injection Hr as <-; reflexivity).
    by apply elem_of_nil in Hk.
Qed.

(** ** The sentinel *)

Lemma lookup_remove_eq k kvs : Fields.lookup k (Fields.remove k kvs) = VUndefined.
Proof.
  induction kvs as [|[k0 v0] rest IH]; simpl; [done|].
  destruct (String.eqb k0 k) eqn:E; [exact IH|]. simpl. by rewrite E.
Qed.

Lemma lookup_remove_ne k k' kvs :
  k <> k' -> Fields.lookup k' (Fields.remove k kvs) = Fields.lookup k' kvs.
Proof.
  intros Hne. induction kvs as [|[k0 v0] rest IH]; simpl; [done|].
  destruct (String.eqb k0 k) eqn:E; simpl.
  - apply String.eqb_eq in E. subst k0.
    destruct (String.eqb k k') eqn:E'; [|exact IH].
    apply String.eqb_eq in E'. contradiction.
  - by rewrite IH.
Qed.

(** X9. What is serialized never carries a truthy sentinel in its error, and
    differs from the response body in nothing else: the other fields of the
    error and the other fields of the body are those of the response. *)
Theorem only_the_sentinel_is_stripped (body : value) :
  let sent := RESTInterfaceHandler.stripSentinel body in
  truthy (getOpt (getOpt sent "error") "isModelInterfaceError") = false
  /\ (forall k, k <> "isModelInterfaceError" ->
                getOpt (getOpt sent "error") k = getOpt (getOpt body "error") k)
  /\ (forall k, k <> "error" -> getOpt sent k = getOpt body k).
Proof.
  unfold RESTInterfaceHandler.stripSentinel.
  destruct (truthy (getOpt (getOpt body "error") "isModelInterfaceError")) eqn:E;
    [|done].
  destruct body as [| | | | | | | |kvs]; try done.
  cbn [getOpt get] in E |- *.
  destruct (Fields.lookup "error" kvs) as [| | | | | | | |ekvs] eqn:El; try done.
  cbn [getOpt get]. rewrite lookup_assign_eq. cbn [getOpt get].
  split; [by rewrite lookup_remove_eq|].
  split.
  - intros k Hk. by rewrite lookup_remove_ne.
  - intros k Hk. by rewrite lookup_assign_ne.
Qed.

(** ** [execute] as a whole *)

Section ExecuteProperties.
Import ModelInterfaceRequestMethods RESTInterfaceHandler.
Variable pf : Platform.
Variable this : RESTInterfaceHandler.t.

Lemma wrapError_truthy err : truthy (wrapError err) = true.
Proof.
  unfold wrapError. destruct (carriesSentinel err) eqn:E; [|done].
  unfold carriesSentinel in E.
  by destruct err as [| | | | | | |items|kvs].
Qed.

(** X10. An error thrown while the request is constructed (the URL, the
    stream, the codec, the policy) is not rethrown: [execute] renders it.  The
    status is the wrapped error's [httpCode], or 500; the headers set are
    [Content-Type] and those the error supplies; on HEAD nothing is written
    and the response is ended, otherwise the body is the serialized
    [{error}] and only a failing serializer makes [execute] throw. *)
Theorem construction_error_is_rendered req opts w err w1 :
  interfaceRequestFromHttpRequest pf this req opts w = (Thrown err, w1) ->
  let body := VObj [("error", wrapError err)] in
  let fm := headerToSerializationFormat (encoder (options this)) req "accept" in
  let run := execute pf this req opts w in
  statusCode (res run.2) = js_or (get (wrapError err) "httpCode") (VNum 500)
  /\ setHeaders (res run.2)
     = setHeaders (res w)
       ++ [("Content-Type", VStr fm.2)] ++ suppliedHeaders (wrapError err)
  /\ if String.eqb (http_method req) "HEAD"
     then run.1 = Returned tt
          /\ written (res run.2) = written (res w)
          /\ ended (res run.2) = true
     else match serializeObject (encoder (options this)) (stripSentinel body) fm.1 with
          | Returned chunk =>
              run.1 = Returned tt
              /\ written (res run.2) = written (res w) ++ [chunk]
              /\ ended (res run.2) = true
          | Thrown e =>
              run.1 = Thrown e /\ written (res run.2) = written (res w)
          end.
Proof.
  intros Hthrow body fm run.
  set (resp := {| resp_method := HTTPMethodToOperation_get (http_method req);
                  resp_body := body |}).
  assert (obtainResponse pf this req opts w = (Returned resp, w1)) as H0.
  { unfold obtainResponse, bind, tryCatch. by rewrite Hthrow. }
  assert (conditionalGet pf req opts resp w1 = (Returned false, w1)) as H1.
  { by apply conditionalGet_no_result. }
  assert (branchOf resp = Negotiated) as Hbr.
  { unfold branchOf. simpl. by rewrite andb_false_r. }
  assert (res w1 = res w) as Hres.
  { pose proof (interfaceRequest_sameResponse pf this req opts w) as Hs.
    by rewrite Hthrow in Hs. }
  unfold run.
  rewrite (execute_rendered pf this _ _ _ _ _ _ H0 H1), renderResponse_run, Hbr.
  cbv zeta. unfold statusPerSpec. rewrite Hbr.
  change (errorHeaders (resp_body resp))
    with (if truthy (wrapError err) then suppliedHeaders (wrapError err) else []).
  change (getOpt (resp_body resp) "error") with (wrapError err).
  change (xCountHeaders (http_method req) (resp_body resp))
    with (@nil (string * value)).
  rewrite wrapError_truthy, <- Hres.
  fold fm. change (resp_body resp) with body.
  destruct (String.eqb (http_method req) "HEAD");
    [| destruct (serializeObject _ _ _) ];
    simpl; rewrite <- !app_assoc; repeat split; reflexivity.
Qed.

(** X11. When the result's last-modified field is truthy but no date,
    [execute] throws a [RangeError] where it formats the [Last-Modified]
    header: no status is assigned, no header is set, nothing is written and
    the response is not ended. *)
Theorem unreadable_timestamp_throws req opts resp w0 w :
  obtainResponse pf this req opts w0 = (Returned resp, w) ->
  truthy (getOpt (resp_body resp) "result") = true ->
  truthy (get (getOpt (resp_body resp) "result") (lastModifiedFieldOf opts)) = true ->
  dateTime pf (get (getOpt (resp_body resp) "result") (lastModifiedFieldOf opts))
  = None ->
  execute pf this req opts w0 = (Thrown RangeError, w)
  /\ res w = res w0.
Proof.
  intros H0 Hr Hf Hd. split.
  - unfold execute, bind. rewrite H0.
    unfold conditionalGet. rewrite Hr, Hf, Hd. cbn [andb].
    assert (forall ms, notModified ms None = false) as ->.
    { by intros [[t|]|]. }
    reflexivity.
  - pose proof (obtainResponse_sameResponse pf this req opts w0) as Hs.
    by rewrite H0 in Hs.
Qed.

(** X12. Which parse options are in force.  Options passed to [execute]
    replace the handler's own wholesale: with [opts] given, nothing in the
    handler's [parseOptions] (its [allowedMethods] policy included) has any
    effect.  And without [opts], the [lastModifiedField] of the handler's
    [parseOptions] is never consulted: whatever it is set to, [execute] does
    the same. *)
Theorem parse_options_in_force req w :
  (forall o p,
      execute pf (withParseOptions p this) req (Some o) w
      = execute pf this req (Some o) w)
  /\ (forall o f,
        parseOptions (options this) = Some o ->
        execute pf (withParseOptions (Some (withLastModifiedField f o)) this)
          req None w
        = execute pf this req None w).
Proof.
  split; [reflexivity|].
  intros o f Ho.
  assert (interfaceRequestFromHttpRequest pf
            (withParseOptions (Some (withLastModifiedField f o)) this) req None w
          = interfaceRequestFromHttpRequest pf this req None w) as Hreq.
  { unfold interfaceRequestFromHttpRequest, effectiveOptions. rewrite Ho.
    reflexivity. }
  unfold execute, obtainResponse, bind, tryCatch. rewrite Hreq.
  reflexivity.
Qed.

Lemma conditionalGet_ended req opts resp w :
  match conditionalGet pf req opts resp w with
  | (Returned true, w') => ended (res w') = true
  | (Returned false, w') | (Thrown _, w') => ended (res w') = ended (res w)
  end.
Proof.
  unfold conditionalGet.
  destruct (truthy _ && truthy _); [|done].
  destruct (notModified _ _); [done|].
  unfold bind, liftOutcome. by destruct (toISOString _ _).
Qed.

Lemma renderResponse_ended req resp w :
  ended (res (renderResponse pf this req resp w).2) = ended (res w).
Proof.
  rewrite renderResponse_run.
  destruct (branchOf resp); try done.
  - by destruct (parseUrl pf this req).
  - cbv zeta. destruct (String.eqb (http_method req) "HEAD"); [done|].
    by destruct (serializeObject _ _ _).
Qed.

Lemma execute_ended req opts w :
  match execute pf this req opts w with
  | (Returned _, w') => ended (res w') = true
  | (Thrown _, w') => ended (res w') = ended (res w)
  end.
Proof.
  unfold execute, bind.
  pose proof (obtainResponse_sameResponse pf this req opts w) as H1.
  destruct (obtainResponse pf this req opts w) as [[resp|e] w1]; simpl in H1;
    [|by rewrite H1].
  pose proof (conditionalGet_ended req opts resp w1) as H2.
  destruct (conditionalGet pf req opts resp w1) as [[[]|e] w2];
    [exact H2 | | by rewrite H2, H1].
  pose proof (renderResponse_ended req resp w2) as H3.
  destruct (renderResponse pf this req resp w2) as [[[]|e] w3]; simpl in *;
    [done | by rewrite H3, H2, H1].
Qed.

(** X13. [execute] ends the response exactly when it returns: whenever it
    returns the response has been ended, and whenever it throws it has not
    touched [end]. *)
Theorem response_ended_iff_returned req opts w :
  match execute pf this req opts w with
  | (Returned _, w') => ended (res w') = true
  | (Thrown _, w') => ended (res w') = ended (res w)
  end.
Proof. apply execute_ended. Qed.

Lemma renderResponse_written req resp w :
  match renderResponse pf this req resp w with
  | (Returned _, w') =>
      written (res w') = written (res w)
      \/ exists chunk, written (res w') = written (res w) ++ [chunk]
  | (Thrown _, w') => written (res w') = written (res w)
  end.
Proof.
  rewrite renderResponse_run.
  destruct (branchOf resp); try by left.
  - destruct (parseUrl pf this req); [by left | done].
  - cbv zeta. destruct (String.eqb (http_method req) "HEAD"); [by left|].
    destruct (serializeObject _ _ _); [right; by eexists | done].
Qed.

(** X14. [execute] writes at most once, and only as the last thing before it
    ends the response: when it returns, at most one chunk follows what was
    written before, and when it throws (the Simple Interface, the date of the
    [Last-Modified] header, the URL or the codec) it has written nothing. *)
Theorem execute_writes_at_most_once req opts w :
  match execute pf this req opts w with
  | (Returned _, w') =>
      written (res w') = written (res w)
      \/ exists chunk, written (res w') = written (res w) ++ [chunk]
  | (Thrown _, w') => written (res w') = written (res w)
  end.
Proof.
  unfold execute, bind.
  pose proof (obtainResponse_sameResponse pf this req opts w) as H1.
  destruct (obtainResponse pf this req opts w) as [[resp|e] w1]; simpl in H1;
    [|by rewrite H1].
  pose proof (conditionalGet_sameWritten pf req opts resp w1) as H2.
  unfold sameWritten in H2.
  destruct (conditionalGet pf req opts resp w1) as [[[]|e] w2]; simpl in H2;
    [left; by rewrite H2, H1 | | by rewrite H2, H1].
  pose proof (renderResponse_written req resp w2) as H3.
  destruct (renderResponse pf this req resp w2) as [[[]|e] w3]; simpl;
    rewrite <- H1, <- H2; exact H3.
Qed.

Lemma readBody_io req opts w :
  match readBody req opts w with
  | (Returned buf, w') =>
      (io w' = io w
       /\ (buf = None \/ exists b, buf = Some b /\ http_body req = VBuf b))
      \/ (io w' = io w ++ [ReadStream]
          /\ (buf = None \/ exists b, buf = Some b /\ http_stream req = Returned b))
  | (Thrown _, w') => io w' = io w \/ io w' = io w ++ [ReadStream]
  end.
Proof.
  unfold readBody, getRawBody, bind, logEvent, liftOutcome, ret.
  destruct (http_body req) as [| | | | | |b| |] eqn:Hb;
    try (destruct (flag opts skipParseBody); cbn;
         [left; split; [done | by left]|];
         destruct (http_stream req) as [raw|err]; cbn; [|by right];
         right; split; [done|];
         destruct (length raw =? 0)%nat; [by left | right; by eexists]).
  cbn. left. split; [done|].
  destruct (length b =? 0)%nat; [by left | right; by eexists].
Qed.

Lemma buildRequest_io req opts u buf w :
  io (buildRequest pf this req opts u buf w).2 = io w
  \/ exists b fmt,
       buf = Some b
       /\ io (buildRequest pf this req opts u buf w).2 = io w ++ [Deserialize b fmt].
Proof.
  unfold buildRequest.
  destruct (resolveMethod _ _); [|by left].
  destruct (notAllowed _ _); [by left|].
  unfold bind, mergeBody. destruct buf as [b|]; [|by left].
  unfold bind, logEvent, liftOutcome, ret.
  right. eexists _, _. split; [done|].
  by destruct (deserializeObject _ _ _).
Qed.

Lemma conditionalGet_io req opts resp w :
  io (conditionalGet pf req opts resp w).2 = io w.
Proof.
  unfold conditionalGet.
  destruct (truthy _ && truthy _); [|done].
  destruct (notModified _ _); [done|].
  unfold bind, liftOutcome. by destruct (toISOString _ _).
Qed.

Lemma renderResponse_io req resp w :
  io (renderResponse pf this req resp w).2 = io w.
Proof.
  rewrite renderResponse_run.
  destruct (branchOf resp); try done.
  - by destruct (parseUrl pf this req).
  - cbv zeta. destruct (String.eqb (http_method req) "HEAD"); [done|].
    by destruct (serializeObject _ _ _).
Qed.

(** The I/O of one exchange, as the list of events it adds. *)
Lemma interfaceRequest_io req opts w :
  exists evs,
    io (interfaceRequestFromHttpRequest pf this req opts w).2 = io w ++ evs
    /\ (evs = [] \/ evs = [ReadStream]
        \/ (exists b fmt, evs = [Deserialize b fmt] /\ http_body req = VBuf b)
        \/ (exists b fmt, evs = [ReadStream; Deserialize b fmt]
                          /\ http_stream req = Returned b)).
Proof.
  unfold interfaceRequestFromHttpRequest, bind, liftOutcome.
  destruct (parseUrl pf this req) as [u|e];
    [|exists []; split; [by rewrite app_nil_r | by left]].
  pose proof (readBody_io req (effectiveOptions this opts) w) as Hr.
  destruct (readBody req (effectiveOptions this opts) w) as [[buf|e] w1].
  - destruct (buildRequest_io req (effectiveOptions this opts) u buf w1)
      as [Hb | (b & fmt & -> & Hb)]; rewrite Hb.
    + destruct Hr as [[-> _] | [-> _]].
      * exists []. split; [by rewrite app_nil_r | by left].
      * exists [ReadStream]. split; [done | right; by left].
    + destruct Hr as [[-> Hbuf] | [-> Hbuf]].
      * destruct Hbuf as [? | (b' & [= <-] & Hbody)]; [done|].
        exists [Deserialize b fmt]. split; [done|].
        right; right; left. by eexists _, _.
      * destruct Hbuf as [? | (b' & [= <-] & Hs)]; [done|].
        exists [ReadStream; Deserialize b fmt].
        split; [by rewrite <- app_assoc|].
        right; right; right. by eexists _, _.
  - cbn [snd]. destruct Hr as [-> | ->].
    + exists []. split; [by rewrite app_nil_r | by left].
    + exists [ReadStream]. split; [done | right; by left].
Qed.

(** X15. One exchange reads the request stream at most once and deserializes
    at most once, in that order; what is deserialized is the buffer attached
    as [req.body], with no read at all, or else what the stream yielded. *)
Theorem execute_reads_and_deserializes_once req opts w :
  exists evs,
    io (execute pf this req opts w).2 = io w ++ evs
    /\ (evs = [] \/ evs = [ReadStream]
        \/ (exists b fmt, evs = [Deserialize b fmt] /\ http_body req = VBuf b)
        \/ (exists b fmt, evs = [ReadStream; Deserialize b fmt]
                          /\ http_stream req = Returned b)).
Proof.
  destruct (interfaceRequest_io req opts w) as (evs & Hio & Hevs).
  exists evs. split; [|exact Hevs].
  rewrite <- Hio.
  unfold execute, obtainResponse, bind, tryCatch, liftOutcome, ret.
  destruct (interfaceRequestFromHttpRequest pf this req opts w) as [[r|e] w1];
    cbn [snd].
  - destruct (SimpleModelInterface.execute (modelInterface this) r) as [resp|e];
      [|done].
    pose proof (conditionalGet_io req opts resp w1) as H2.
    destruct (conditionalGet pf req opts resp w1) as [[[]|e] w2]; simpl in *;
      try done.
    pose proof (renderResponse_io req resp w2) as H3.
    destruct (renderResponse pf this req resp w2) as [[[]|e] w3]; simpl in *;
      by rewrite H3.
  - set (resp := {| resp_method := _; resp_body := _ |}).
    pose proof (conditionalGet_io req opts resp w1) as H2.
    destruct (conditionalGet pf req opts resp w1) as [[[]|e'] w2]; simpl in *;
      try done.
    pose proof (renderResponse_io req resp w2) as H3.
    destruct (renderResponse pf this req resp w2) as [[[]|e'] w3]; simpl in *;
      by rewrite H3.
Qed.
End ExecuteProperties.

(** ** The RPC registry *)

Section RegistryProperties.
Import RPCInterface.
Variable mi : SimpleInterfaceObject.
Variable methodPrefix : option string.

Lemma elem_of_registrationKeys prefix names key :
  key ∈ registrationKeys prefix names
  <-> exists k, k ∈ names /\ excluded k = false /\ key = prefix +:+ k.
Proof.
  unfold registrationKeys. rewrite list_elem_of_fmap. split.
  - intros (k & -> & Hk). apply list_elem_of_filter in Hk as [Hex Hk]. by exists k.
  - intros (k & Hk & Hex & ->). exists k. split; [done|].
    by apply list_elem_of_filter.
Qed.

Lemma register_outside k methods key :
  (excluded k = false -> key <> rpcInterfaceMethodPrefix mi methodPrefix +:+ k) ->
  (register mi methodPrefix k methods).2 !! key = methods !! key.
Proof.
  intros Hne. unfold register. fold (excluded k).
  destruct (excluded k); [done|].
  destruct (property mi k) as [[f|v]|]; try done.
  cbn [snd]. apply lookup_insert_ne. intros Heq. by apply Hne.
Qed.

Lemma registerAll_outside names : forall methods key,
  key ∉ registrationKeys (rpcInterfaceMethodPrefix mi methodPrefix) names ->
  (registerAll mi methodPrefix names methods).2 !! key = methods !! key.
Proof.
  induction names as [|k rest IH]; intros methods key Hout; [done|].
  cbn [registerAll].
  pose proof (register_outside k methods key) as Hk.
  destruct (register mi methodPrefix k methods) as [[[]|e] m1]; cbn [snd] in *.
  - rewrite IH.
    + apply Hk. intros Hex Heq. apply Hout.
      apply elem_of_registrationKeys. exists k. set_solver.
    + intros Hin. apply Hout.
      apply elem_of_registrationKeys in Hin as (k' & ? & ? & ?).
      apply elem_of_registrationKeys. exists k'. set_solver.
  - apply Hk. intros Hex Heq. apply Hout.
    apply elem_of_registrationKeys. exists k. set_solver.
Qed.

(** X16. Whether it completes or throws, the constructor leaves every
    registry entry alone whose key is not the prefix followed by a property
    name it registers; in particular it never writes the keys of
    [constructor] and [execute]. *)
Theorem constructor_leaves_other_methods (methods : gmap string BoundFunction) :
  let prefix := rpcInterfaceMethodPrefix mi methodPrefix in
  let after := (construct mi methodPrefix methods).2 in
  (forall key,
      key ∉ registrationKeys prefix (fst <$> prototypeProperties mi) ->
      after !! key = methods !! key)
  /\ after !! (prefix +:+ "constructor") = methods !! (prefix +:+ "constructor")
  /\ after !! (prefix +:+ "execute") = methods !! (prefix +:+ "execute").
Proof.
  cbv zeta. unfold construct.
  split; [intros key; apply registerAll_outside|].
  split; apply registerAll_outside; intros Hin;
    apply elem_of_registrationKeys in Hin as (k & _ & Hex & Heq);
    apply append_inj_r in Heq; subst k; discriminate Hex.
Qed.

Lemma registerAll_app pre rest : forall methods,
  registerAll mi methodPrefix (pre ++ rest) methods
  = match registerAll mi methodPrefix pre methods with
    | (Returned _, m1) => registerAll mi methodPrefix rest m1
    | (Thrown e, m1) => (Thrown e, m1)
    end.
Proof.
  induction pre as [|k pre IH]; intros methods; [done|].
  cbn [app registerAll].
  destruct (register mi methodPrefix k methods) as [[[]|e] m1]; [apply IH | done].
Qed.

(** X17. A property that is neither skipped nor a function stops the
    constructor with a [TypeError]: the properties before it are registered,
    and nothing is registered for it or for those after it. *)
Theorem constructor_stops_at_non_function
    (pre post : list string) (k : string) (methods : gmap string BoundFunction) :
  fst <$> prototypeProperties mi = pre ++ k :: post ->
  excluded k = false ->
  (forall f, property mi k <> Some (Fn f)) ->
  (forall k', k' ∈ pre -> excluded k' = false ->
              exists f, property mi k' = Some (Fn f)) ->
  let prefix := rpcInterfaceMethodPrefix mi methodPrefix in
  exists methods',
    construct mi methodPrefix methods = (Thrown TypeError, methods')
    /\ (forall k', k' ∈ pre -> excluded k' = false ->
                   registeredAs mi prefix k' methods')
    /\ (forall key, key ∉ registrationKeys prefix pre ->
                    methods' !! key = methods !! key).
Proof.
  intros Hnames Hex Hnf Hpre prefix.
  unfold construct. rewrite Hnames, registerAll_app.
  destruct (registerAll_registers mi methodPrefix pre methods Hpre)
    as (m1 & Hrun & Hreg).
  pose proof (registerAll_outside pre methods) as Hout.
  rewrite Hrun in Hout |- *. cbn [snd] in Hout.
  cbn [registerAll]. unfold register. fold (excluded k). rewrite Hex.
  exists m1.
  destruct (property mi k) as [[f|v]|] eqn:Hp; [by destruct (Hnf f) | |];
    (split; [reflexivity|]); (split; [exact Hreg | exact Hout]).
Qed.

Lemma registerAll_returned names : forall methods methods',
  registerAll mi methodPrefix names methods = (Returned tt, methods') ->
  forall k, k ∈ names -> excluded k = false ->
            exists f, property mi k = Some (Fn f).
Proof.
  induction names as [|k0 rest IH]; intros methods methods' Hrun k Hin Hex;
    [by apply elem_of_nil in Hin|].
  cbn [registerAll] in Hrun.
  destruct (register mi methodPrefix k0 methods) as [[[]|e] m1] eqn:Hr; [|done].
  apply elem_of_cons in Hin as [->|Hin]; [|by apply (IH m1 methods')].
  unfold register in Hr. fold (excluded k0) in Hr. rewrite Hex in Hr.
  destruct (property mi k0) as [[f|v]|]; [by exists f | done | done].
Qed.

(** X18. Constructing the interface a second time over the same server
    changes nothing: after a construction that completed, another one
    completes and leaves the registry as it is. *)
Theorem constructing_twice_is_constructing_once
    (methods methods' : gmap string BoundFunction) :
  construct mi methodPrefix methods = (Returned tt, methods') ->
  construct mi methodPrefix methods' = (Returned tt, methods').
Proof.
  unfold construct. intros Hrun.
  set (names := fst <$> prototypeProperties mi) in *.
  pose proof (registerAll_returned names methods methods' Hrun) as Hfn.
  destruct (registerAll_registers mi methodPrefix names methods Hfn)
    as (m1 & Hrun1 & Hreg1).
  rewrite Hrun in Hrun1. injection Hrun1 as <-.
  destruct (registerAll_registers mi methodPrefix names methods' Hfn)
    as (m2 & Hrun2 & Hreg2).
  rewrite Hrun2. f_equal. apply map_eq. intros key.
  destruct (decide (key ∈ registrationKeys
                            (rpcInterfaceMethodPrefix mi methodPrefix) names))
    as [Hin|Hout].
  - apply elem_of_registrationKeys in Hin as (k & Hk & Hex & ->).
    destruct (Hreg1 k Hk Hex) as (f1 & Hp1 & ->).
    destruct (Hreg2 k Hk Hex) as (f2 & Hp2 & ->).
    congruence.
  - pose proof (registerAll_outside names methods' key Hout) as H.
    by rewrite Hrun2 in H.
Qed.
End RegistryProperties.

(** ** The middleware *)

Section MiddlewareProperties.
Import RESTInterfaceHandler RESTInterfaceMiddleware.
Variable pf : Platform.
Variable modelInterface : RESTInterfaceHandler.t.

(** X19. With a callback that does not throw, the middleware calls it exactly
    once for an [IncomingMessage]: with [null] when [execute] (run without
    [opts]) returned, and then the response has been ended; with the error
    when [execute] threw, and then [execute] has not ended the response.  No
    rejection is left unhandled, and the response is as [execute] left it. *)
Theorem middleware_reports_through_the_callback
    (msg : IncomingMessage) (callback : value -> outcome unit) (w : World) :
  (forall v, callback v = Returned tt) ->
  let run := RESTInterfaceMiddleware pf modelInterface (Incoming msg) callback w in
  unhandled run = None
  /\ after run = (execute pf modelInterface msg None w).2
  /\ match (execute pf modelInterface msg None w).1 with
     | Returned _ => calls run = [VNull] /\ ended (res (after run)) = true
     | Thrown e => calls run = [e] /\ ended (res (after run)) = ended (res w)
     end.
Proof.
  intros Hcb.
  unfold RESTInterfaceMiddleware, RESTInterfaceMiddlewareHandler,
    RESTInterfaceMiddlewareInner, catchWith.
  pose proof (execute_ended pf modelInterface msg None w) as He.
  destruct (execute pf modelInterface msg None w) as [[[]|e] w'];
    rewrite Hcb; cbn; by repeat split.
Qed.

(** X20. A callback that throws when called with [null] is called a second
    time, with what it threw; what it throws then is a rejection nobody
    handles. *)
Theorem throwing_callback_is_called_twice
    (req : Request) (callback : value -> outcome unit) (w w' : World) (e : value) :
  RESTInterfaceMiddlewareInner pf modelInterface req w = Some (Returned tt, w') ->
  callback VNull = Thrown e ->
  let run := RESTInterfaceMiddlewareHandler pf modelInterface req callback w in
  calls run = [VNull; e]
  /\ unhandled run = match callback e with
                     | Returned _ => None
                     | Thrown e' => Some e'
                     end
  /\ after run = w'.
Proof.
  intros Hin Hcb.
  unfold RESTInterfaceMiddlewareHandler, catchWith. rewrite Hin, Hcb.
  by destruct (callback e).
Qed.

End MiddlewareProperties.

(** ** The earlier handler *)

Section EarlierHandler.
Import ModelInterfaceRequestMethods RESTInterfaceHandler.
Variable pf : Platform.
Variable this : RESTInterfaceHandler.t.

Lemma earlier_interfaceRequest_sameResponse req w :
  res (EarlierRESTInterfaceHandler.interfaceRequestFromHttpRequest pf this req w).2
  = res w.
Proof.
  unfold EarlierRESTInterfaceHandler.interfaceRequestFromHttpRequest,
    getRawBody, bind, liftOutcome, logEvent.
  destruct (parseUrl pf this req) as [u|e]; [|done].
  destruct (http_stream req) as [raw|e]; [|done].
  destruct (EarlierRESTInterfaceHandler.resolveMethod _ _); [|done].
  pose proof (mergeBody_sameResponse this req
                (if (length raw =? 0)%nat then None else Some raw)
                (if negb (String.eqb (dropChars 1 (pathname u)) "")
                 then lodash_set (VObj []) ["query"; "_id"]
                        (VStr (dropChars 1 (pathname u)))
                 else VObj [])
                {| res := res w; io := io w ++ [ReadStream] |}) as Hm.
  unfold sameResponse in Hm.
  by destruct (mergeBody _ _ _ _ _) as [[body|e] w1].
Qed.

(** X21. The earlier [execute] has no handler around request construction:
    an error thrown there is rethrown as it is, and the response is not
    touched (no status, no header, no body, not ended). *)
Theorem earlier_execute_rethrows req w err w1 :
  EarlierRESTInterfaceHandler.interfaceRequestFromHttpRequest pf this req w
  = (Thrown err, w1) ->
  EarlierRESTInterfaceHandler.execute pf this req w = (Thrown err, w1)
  /\ res w1 = res w.
Proof.
  intros H. split.
  - unfold EarlierRESTInterfaceHandler.execute, bind. by rewrite H.
  - pose proof (earlier_interfaceRequest_sameResponse req w) as Hs.
    by rewrite H in Hs.
Qed.

(** X22. The earlier request construction reads the request stream whenever
    the URL parses, a buffer attached as [req.body] or not, before anything
    else it logs. *)
Theorem earlier_construction_always_reads req u w :
  parseUrl pf this req = Returned u ->
  exists rest,
    io (EarlierRESTInterfaceHandler.interfaceRequestFromHttpRequest pf this req w).2
    = io w ++ ReadStream :: rest.
Proof.
  intros Hu.
  unfold EarlierRESTInterfaceHandler.interfaceRequestFromHttpRequest,
    getRawBody, bind, liftOutcome, logEvent.
  rewrite Hu.
  destruct (http_stream req) as [raw|e]; [|by exists []].
  destruct (EarlierRESTInterfaceHandler.resolveMethod _ _); [|by exists []].
  unfold mergeBody.
  destruct (length raw =? 0)%nat; [by exists []|].
  unfold bind, logEvent, liftOutcome, ret.
  destruct (deserializeObject _ _ _); simpl; rewrite <- app_assoc; by eexists.
Qed.

(** X23. On a URL without a path remainder (in either version's reading of
    it), with no buffer attached and no parse options in force, the two
    versions construct the same request, with the same I/O. *)
Theorem versions_agree_on_collection_urls req opts u w :
  parseUrl pf this req = Returned u ->
  dropChars 1 (pathname u) = "" ->
  targetIdOf (replaceFirst (urlBase this) (href u)) = "" ->
  (forall b, http_body req <> VBuf b) ->
  effectiveOptions this opts = None ->
  interfaceRequestFromHttpRequest pf this req opts w
  = EarlierRESTInterfaceHandler.interfaceRequestFromHttpRequest pf this req w.
Proof.
  intros Hu Hp Ht Hb Ho.
  unfold interfaceRequestFromHttpRequest,
    EarlierRESTInterfaceHandler.interfaceRequestFromHttpRequest,
    buildRequest, readBody, getRawBody, bind, liftOutcome, logEvent, ret.
  rewrite Hu, Ho, Hp, Ht. cbn [flag].
  destruct (http_body req) as [| | | | | |b| |] eqn:Hbody;
    try (by destruct (Hb b)).
  all: destruct (http_stream req) as [raw|e]; [|done].
  all: cbn [String.eqb negb notAllowed].
  all: change (EarlierRESTInterfaceHandler.resolveMethod (http_method req) false)
         with (resolveMethod (http_method req) false).
  all: destruct (resolveMethod (http_method req) false) eqn:Hm;
         [reflexivity | by apply resolveMethod_never_null in Hm].
Qed.
End EarlierHandler.

Section Rendering.
Import ModelInterfaceRequestMethods RESTInterfaceHandler.
Variable pf : Platform.
Variable this : RESTInterfaceHandler.t.

(** X24. The later rendering extends the earlier one: for a verb other than
    HEAD and a response with no null result, no count, no truthy sentinel in
    its error and no headers supplied by its error, both versions do the same
    to the response. *)
Theorem later_rendering_extends_earlier req resp w :
  http_method req <> "HEAD" ->
  isNull (getOpt (resp_body resp) "result") = false ->
  isUndefined (getOpt (resp_body resp) "count") = true ->
  truthy (getOpt (getOpt (resp_body resp) "error") "isModelInterfaceError") = false ->
  truthy (getOpt (getOpt (resp_body resp) "error") "headers") = false ->
  renderResponse pf this req resp w
  = EarlierRESTInterfaceHandler.renderResponse pf this req resp w.
Proof.
  intros Hv Hn Hc Hs Hh.
  assert (String.eqb (http_method req) "HEAD" = false) as Hv'.
  { destruct (String.eqb (http_method req) "HEAD") eqn:E; [|done].
    by apply String.eqb_eq in E. }
  rewrite renderResponse_run.
  unfold EarlierRESTInterfaceHandler.renderResponse, branchOf, statusPerSpec, branchOf.
  destruct (isUndefined (resp_body resp) || isNull (resp_body resp)); [done|].
  rewrite Hn.
  destruct (isCreate (resp_method resp) && truthy (getOpt (resp_body resp) "id")).
  { unfold bind, liftOutcome. by destruct (parseUrl pf this req). }
  cbv zeta. rewrite Hv'.
  assert (xCountHeaders (http_method req) (resp_body resp) = []) as ->.
  { unfold xCountHeaders. by rewrite Hv', andb_false_r, Hc. }
  assert (errorHeaders (resp_body resp) = []) as ->.
  { unfold errorHeaders, suppliedHeaders.
    destruct (truthy (getOpt (resp_body resp) "error")) eqn:E; [|done].
    assert (get (getOpt (resp_body resp) "error") "headers"
            = getOpt (getOpt (resp_body resp) "error") "headers") as ->.
    { by destruct (getOpt (resp_body resp) "error"). }
    by rewrite Hh. }
  assert (stripSentinel (resp_body resp) = resp_body resp) as ->.
  { unfold stripSentinel. by rewrite Hs. }
  rewrite !withHeaders_nil.
  destruct (headerToSerializationFormat _ req "accept") as [fmt mime].
  cbn [fst snd]. unfold bind, liftOutcome.
  destruct (truthy (getOpt (resp_body resp) "error"));
    cbn [setHeader setStatus updRes];
    by destruct (serializeObject _ _ _).
Qed.


End Rendering.

(** ** The further properties at work *)

Section FurtherWitnesses.
Import ModelInterfaceRequestMethods RESTInterfaceHandler Demo Scenarios.

Lemma identifier_round_trip_witness :
  targetIdOf (replaceFirst base (base +:+ "/" +:+ "abc" +:+ "?limit=5")) = "abc".
Proof. exact (identifier_round_trip base "abc" "?limit=5" eq_refl eq_refl eq_refl). Defined.

Lemma skipped_body_does_no_io_witness :
  (interfaceRequestFromHttpRequest platform handler (request "POST" "/" [])
     (Some skipBody) world0).2 = world0.
Proof.
  apply (skipped_body_does_no_io platform handler (request "POST" "/" [])
           (Some skipBody) world0 eq_refl).
  intros b. discriminate.
Defined.

Lemma allowed_operation_ignores_policy_witness :
  interfaceRequestFromHttpRequest platform handler (request "GET" "/abc" [])
    (Some (only [findOne])) world0
  = interfaceRequestFromHttpRequest platform handler (request "GET" "/abc" [])
      (Some (withAllowedMethods None (only [findOne]))) world0.
Proof.
  exact (allowed_operation_ignores_policy platform handler (request "GET" "/abc" [])
           (Some (only [findOne])) (only [findOne]) [findOne]
           {| href := base +:+ "/abc"; pathname := "/abc"; search := "" |}
           findOne world0 eq_refl eq_refl eq_refl eq_refl eq_refl).
Defined.

Lemma empty_policy_rejects_everything_witness :
  exists m,
    interfaceRequestFromHttpRequest platform handler (request "GET" "/" [])
      (Some (only [])) world0
    = (Thrown (HTTPMethodNotAllowedError m (Some [])), afterRead).
Proof.
  destruct (empty_policy_rejects_everything platform handler (request "GET" "/" [])
              (Some (only [])) (only [])
              {| href := base +:+ "/"; pathname := "/"; search := "" |}
              None world0 afterRead eq_refl eq_refl eq_refl eq_refl)
    as (m & Hm & _).
  by exists m.
Defined.

Lemma policy_precedes_head_rewrite_witness :
  exists r w2,
    interfaceRequestFromHttpRequest platform handler (request "HEAD" "/abc" [])
      (Some (only [count])) world0 = (Returned r, w2)
    /\ req_method r = findOne.
Proof.
  destruct (interfaceRequestFromHttpRequest platform handler
              (request "HEAD" "/abc" []) (Some (only [count])) world0)
    as [[r|e] w2] eqn:Hrun; [|vm_compute in Hrun; discriminate Hrun].
  exists r, w2. split; [reflexivity|].
  pose proof (policy_precedes_head_rewrite platform handler (request "HEAD" "/abc" [])
                (Some (only [count])) (only [count]) [count]
                {| href := base +:+ "/abc"; pathname := "/abc"; search := "" |}
                None world0 afterRead eq_refl eq_refl eq_refl
                ltac:(discriminate) eq_refl eq_refl) as H.
  exact (proj2 H r w2 Hrun).
Defined.

Lemma body_fields_survive_witness :
  exists r w',
    interfaceRequestFromHttpRequest platform
      (handlerWith (jsonOf posted) (store 1000) None) (upload "PUT" "/abc") None world0
    = (Returned r, w')
    /\ get (req_body r) "fields" = VObj [("name", VStr "a")]
    /\ get (req_body r) "query" = VObj [("query", VObj [("_id", VStr "abc")])].
Proof.
  destruct (interfaceRequestFromHttpRequest platform
              (handlerWith (jsonOf posted) (store 1000) None) (upload "PUT" "/abc")
              None world0) as [[r|e] w'] eqn:Hrun;
    [|vm_compute in Hrun; discriminate Hrun].
  exists r, w'. split; [reflexivity|].
  destruct (body_fields_survive platform
              (handlerWith (jsonOf posted) (store 1000) None) (upload "PUT" "/abc")
              None world0
              {| href := base +:+ "/abc"; pathname := "/abc"; search := "" |}
              [Byte.x7b] afterRead
              [ ("fields", VObj [("name", VStr "a")]);
                ("query", VObj [("limit", VNum 1)]) ]
              update r w' eq_refl eq_refl eq_refl eq_refl
              ltac:(repeat constructor; set_solver) eq_refl Hrun)
    as [Hf Hq].
  split; [apply Hf; discriminate | exact Hq].
Defined.

Lemma construction_error_is_rendered_witness :
  let run := execute platform handler (aborted "POST" "/") None world0 in
  statusCode (res run.2) = VNum 500
  /\ run.1 = Returned tt
  /\ written (res run.2) = [responseBytes].
Proof.
  destruct (construction_error_is_rendered platform handler (aborted "POST" "/")
              None world0 (VStr "aborted") afterRead eq_refl)
    as (Hs & _ & Hr & Hw & _).
  split; [exact Hs|]. split; [exact Hr | exact Hw].
Defined.

Lemma unreadable_timestamp_throws_witness :
  execute platform (handlerOn (storeOf undated) None) (request "GET" "/abc" [])
    None world0
  = (Thrown RangeError, afterRead).
Proof.
  exact (proj1 (unreadable_timestamp_throws platform
                  (handlerOn (storeOf undated) None) (request "GET" "/abc" [])
                  None
                  {| resp_method := Some findOne;
                     resp_body := VObj [("result", undated)] |}
                  world0 afterRead eq_refl eq_refl eq_refl eq_refl)).
Defined.

Lemma parse_options_in_force_witness :
  execute platform
    (withParseOptions (Some (withLastModifiedField (Some "modified") (only [findOne])))
       (handlerOn (store 1000) (Some (only [findOne]))))
    (request "GET" "/abc" []) None world0
  = execute platform (handlerOn (store 1000) (Some (only [findOne])))
      (request "GET" "/abc" []) None world0.
Proof.
  exact (proj2 (parse_options_in_force platform
                  (handlerOn (store 1000) (Some (only [findOne])))
                  (request "GET" "/abc" []) world0)
               (only [findOne]) (Some "modified") eq_refl).
Defined.

Lemma constructor_stops_at_non_function_witness :
  exists methods',
    RPCInterface.construct interfaceWithGetter None ∅
    = (Thrown RPCInterface.TypeError, methods')
    /\ methods' !! "Bar:count" = None.
Proof.
  destruct (constructor_stops_at_non_function interfaceWithGetter None
              ["constructor"; "find"] ["count"] "name" ∅ eq_refl eq_refl)
    as (methods' & Hrun & _ & Hout).
  { intros f. discriminate. }
  { intros k' Hk' Hex.
    repeat (apply elem_of_cons in Hk' as [->|Hk']);
      [discriminate Hex | by eexists | by apply elem_of_nil in Hk']. }
  exists methods'. split; [exact Hrun|].
  rewrite Hout; [done|]. unfold registrationKeys. simpl. set_solver.
Defined.

Lemma constructing_twice_is_constructing_once_witness :
  RPCInterface.construct simpleInterface (Some "Foo:")
    (RPCInterface.construct simpleInterface (Some "Foo:") ∅).2
  = (Returned tt, (RPCInterface.construct simpleInterface (Some "Foo:") ∅).2).
Proof.
  apply (constructing_twice_is_constructing_once simpleInterface (Some "Foo:") ∅).
  reflexivity.
Defined.

Lemma middleware_reports_through_the_callback_witness :
  let run :=
    RESTInterfaceMiddleware.RESTInterfaceMiddleware platform handler
      (RESTInterfaceMiddleware.Incoming (request "GET" "/abc" [])) quiet world0 in
  RESTInterfaceMiddleware.calls run = [VNull]
  /\ ended (res (RESTInterfaceMiddleware.after run)) = true.
Proof.
  destruct (middleware_reports_through_the_callback platform handler
              (request "GET" "/abc" []) quiet world0 (fun _ => eq_refl))
    as (_ & _ & H).
  exact H.
Defined.

Lemma throwing_callback_is_called_twice_witness :
  RESTInterfaceMiddleware.calls
    (RESTInterfaceMiddleware.RESTInterfaceMiddlewareHandler platform handler
       (RESTInterfaceMiddleware.Incoming (request "GET" "/abc" [])) fussy world0)
  = [VNull; VStr "late"].
Proof.
  exact (proj1 (throwing_callback_is_called_twice platform handler
                  (RESTInterfaceMiddleware.Incoming (request "GET" "/abc" []))
                  fussy world0
                  (execute platform handler (request "GET" "/abc" []) None world0).2
                  (VStr "late") eq_refl eq_refl)).
Defined.

Lemma earlier_execute_rethrows_witness :
  EarlierRESTInterfaceHandler.execute platform handler (aborted "POST" "/") world0
  = (Thrown (VStr "aborted"), afterRead).
Proof.
  exact (proj1 (earlier_execute_rethrows platform handler (aborted "POST" "/")
                  world0 (VStr "aborted") afterRead eq_refl)).
Defined.

Lemma earlier_construction_always_reads_witness :
  exists rest,
    io (EarlierRESTInterfaceHandler.interfaceRequestFromHttpRequest platform handler
          (attached [Byte.x7b] (request "POST" "/" [])) world0).2
    = io world0 ++ ReadStream :: rest.
Proof.
  exact (earlier_construction_always_reads platform handler
           (attached [Byte.x7b] (request "POST" "/" []))
           {| href := base +:+ "/"; pathname := "/"; search := "" |}
           world0 eq_refl).
Defined.

Lemma versions_agree_on_collection_urls_witness :
  interfaceRequestFromHttpRequest platform handler (upload "POST" "/") None world0
  = EarlierRESTInterfaceHandler.interfaceRequestFromHttpRequest platform handler
      (upload "POST" "/") world0.
Proof.
  apply (versions_agree_on_collection_urls platform handler (upload "POST" "/") None
           {| href := base +:+ "/"; pathname := "/"; search := "" |}
           world0 eq_refl eq_refl eq_refl); [|reflexivity].
  intros b. discriminate.
Defined.

Lemma later_rendering_extends_earlier_witness :
  renderResponse platform handler (request "GET" "/abc" [])
    {| resp_method := Some findOne; resp_body := VObj [("result", doc 1000)] |}
    afterRead
  = EarlierRESTInterfaceHandler.renderResponse platform handler
      (request "GET" "/abc" [])
      {| resp_method := Some findOne; resp_body := VObj [("result", doc 1000)] |}
      afterRead.
Proof.
  apply (later_rendering_extends_earlier platform handler (request "GET" "/abc" [])
           {| resp_method := Some findOne;
              resp_body := VObj [("result", doc 1000)] |} afterRead);
    [discriminate | reflexivity..].
Defined.

End FurtherWitnesses.
